(** * CSV Analyzer (Top Values): the streaming frequency-aggregation engine

    A shallow embedding of the engine of [topvalues_in_csv.py]:
    input validation ([validate_top_n], [validate_chunk_size]), the
    row-size estimator, the chunk loop of [process_csv_thread] with its
    cooperative cancellation, and [generate_report].

    Python dictionaries keep insertion order, and [Counter.most_common]
    breaks ties by that order, so dictionaries are association lists here.
    A file is taken as pandas parses it: a header of column names, which
    pandas makes distinct, and rows of cells.  The window, the buttons and
    the log panel are left out. *)

From Stdlib Require Import List String Ascii ZArith Lia Bool Arith.
From Stdlib Require Import Permutation Sorted DecimalString.
From Stdlib Require DecimalPos SpecFloat.
Import ListNotations.

Local Open Scope string_scope.
Local Open Scope list_scope.
Local Open Scope Z_scope.

Infix "+++" := String.append (right associativity, at level 60).

(** ** Cell values *)

(** What a cell of a parsed chunk holds: pandas' missing marker, a text or
    an integer.  Cells pandas reads as floating-point numbers or as
    booleans are not modelled: [Raw.read_csv] says for which files this
    is all there is. *)
Inductive scalar : Type :=
| NaN
| SStr (s : string)
| SInt (z : Z).

Definition scalar_eq_dec (a b : scalar) : {a = b} + {a <> b}.
Proof.
  decide equality; [apply string_dec | apply Z.eq_dec].
Defined.

Definition scalar_eqb (a b : scalar) : bool :=
  if scalar_eq_dec a b then true else false.

(** [pd.notna] *)
Definition notna (x : scalar) : bool :=
  match x with NaN => false | _ => true end.

(** [str(count)] for a Python int *)
Definition str_of_Z (z : Z) : string :=
  NilEmpty.string_of_int (Z.to_int z).

(** [str(value)], as the f-strings of the report apply it *)
Definition str_of_scalar (v : scalar) : string :=
  match v with
  | NaN => "nan"
  | SStr s => s
  | SInt z => str_of_Z z
  end.

(** ** [collections.Counter] *)

Module Counter.

(** A Counter is a dict from values to counts, in insertion order. *)
Definition t : Type := list (scalar * Z).

(** [dict.get(k, d)] *)
Fixpoint get (c : t) (k : scalar) (d : Z) : Z :=
  match c with
  | [] => d
  | (k', v) :: rest => if scalar_eqb k k' then v else get rest k d
  end.

(** [self[k] = v]: an existing key keeps its place, a new one goes last. *)
Fixpoint setitem (c : t) (k : scalar) (v : Z) : t :=
  match c with
  | [] => [(k, v)]
  | (k', v') :: rest =>
      if scalar_eqb k k' then (k', v) :: rest
      else (k', v') :: setitem rest k v
  end.

(** [self[k] = v] for one item [(k, v)] of a mapping *)
Definition put_item (acc : t) (kv : scalar * Z) : t :=
  setitem acc (fst kv) (snd kv).

(** [self[elem] = count + self.get(elem, 0)] *)
Definition add_item (acc : t) (kv : scalar * Z) : t :=
  setitem acc (fst kv) (snd kv + get acc (fst kv) 0).

(** [dict.update(mapping)] *)
Definition dict_update (c : t) (m : list (scalar * Z)) : t :=
  fold_left put_item m c.

(** [Counter.update(mapping)]: counts are added; an empty counter takes
    the fast path through [dict.update]. *)
Definition update (self : t) (m : list (scalar * Z)) : t :=
  match self with
  | [] => dict_update self m
  | _ :: _ => fold_left add_item m self
  end.

(** Stable sort by descending count: what
    [sorted(items, key=itemgetter(1), reverse=True)] returns. *)
Fixpoint insert_desc (x : scalar * Z) (l : t) : t :=
  match l with
  | [] => [x]
  | y :: rest =>
      if snd x <? snd y then y :: insert_desc x rest else x :: y :: rest
  end.

Fixpoint sort_desc (l : t) : t :=
  match l with
  | [] => []
  | x :: rest => insert_desc x (sort_desc rest)
  end.

(** [Counter.most_common(n)] is [heapq.nlargest(n, items, key=count)],
    which is [sorted(items, key=count, reverse=True)[:n]]. *)
Definition most_common (c : t) (n : Z) : t :=
  firstn (Z.to_nat n) (sort_desc c).

(** [sum(c.values())] *)
Definition total (c : t) : Z :=
  fold_right (fun kv acc => snd kv + acc) 0 c.

Definition keys (c : t) : list scalar := map fst c.

End Counter.

(** ** The pandas operations the engine calls *)

Module Pandas.

(** A chunk: column names and rows of cells. *)
Record DataFrame : Type := mkDataFrame {
  columns : list string;
  rows : list (list scalar)
}.

Fixpoint col_index (col : string) (cols : list string) : option nat :=
  match cols with
  | [] => None
  | c :: rest =>
      if String.eqb col c then Some O
      else option_map S (col_index col rest)
  end.

(** [col in chunk] *)
Definition contains (df : DataFrame) (col : string) : bool :=
  existsb (String.eqb col) (columns df).

(** [chunk[col]]: the cells of one column, top to bottom; a row too
    short for the column reads as missing. *)
Definition getcol (df : DataFrame) (col : string) : list scalar :=
  match col_index col (columns df) with
  | Some i => map (fun r => nth i r NaN) (rows df)
  | None => []
  end.

(** The hash-table pass of [value_counts]: distinct values in the
    order they first occur, each with its number of occurrences. *)
Definition count_item (acc : Counter.t) (x : scalar) : Counter.t :=
  Counter.setitem acc x (Counter.get acc x 0 + 1).

Definition count_values (cells : list scalar) : Counter.t :=
  fold_left count_item cells [].

(** [Series.value_counts()]: missing cells dropped ([dropna=True]),
    most frequent value first ([sort=True]); values of equal count stay
    in the order they first occur. *)
Definition value_counts (cells : list scalar) : list (scalar * Z) :=
  Counter.sort_desc (count_values (filter notna cells)).

(** [Series.to_dict()] *)
Definition to_dict (s : list (scalar * Z)) : Counter.t :=
  Counter.dict_update [] s.

(** The rows of a file cut into pieces of [n] rows. *)
Fixpoint split_rows (fuel n : nat) (rs : list (list scalar))
  : list (list (list scalar)) :=
  match fuel with
  | O => []
  | S fuel' =>
      match rs with
      | [] => []
      | _ :: _ => firstn n rs :: split_rows fuel' n (skipn n rs)
      end
  end.

(** [pd.read_csv(f, chunksize=n)] on a file with a header row whose
    cells pandas types the same way in every chunk ([file] holds them
    typed): the chunks in file order, all with the header's columns.
    A file with a header and no data row gives one empty chunk.  [None]
    stands for the [ValueError] pandas raises for a chunk size below 1.
    [Raw.read_csv] reads a file of raw fields and types each chunk on
    its own. *)
Definition read_csv (file : DataFrame) (chunksize : Z)
  : option (list DataFrame) :=
  if chunksize <? 1 then None
  else
    match rows file with
    | [] => Some [mkDataFrame (columns file) []]
    | _ :: _ =>
        Some (map (mkDataFrame (columns file))
                (split_rows (List.length (rows file)) (Z.to_nat chunksize)
                   (rows file)))
    end.

End Pandas.

(** ** Input validation *)

Module Validation.

Definition DEFAULT_TOP_N : Z := 10.
Definition CHUNK_SIZE_DEFAULT : Z := 9000.
Definition MIN_CHUNK_SIZE : Z := 500.

(** The ASCII characters [str.strip()] removes from both ends. *)
Definition is_space (a : ascii) : bool :=
  let n := nat_of_ascii a in
  (((9 <=? n) && (n <=? 13)) || ((28 <=? n) && (n <=? 32)))%nat.

Fixpoint lstrip (s : list ascii) : list ascii :=
  match s with
  | [] => []
  | a :: rest => if is_space a then lstrip rest else s
  end.

Definition strip (s : list ascii) : list ascii :=
  rev (lstrip (rev (lstrip s))).

(** The characters [int()] skips at both ends of ASCII text: tab, line
    feed, vertical tab, form feed, carriage return and space. *)
Definition is_int_space (a : ascii) : bool :=
  let n := nat_of_ascii a in
  (((9 <=? n) && (n <=? 13)) || (n =? 32))%nat.

Fixpoint int_lstrip (s : list ascii) : list ascii :=
  match s with
  | [] => []
  | a :: rest => if is_int_space a then int_lstrip rest else s
  end.

Definition int_strip (s : list ascii) : list ascii :=
  rev (int_lstrip (rev (int_lstrip s))).

Definition digit_val (a : ascii) : option Z :=
  let n := nat_of_ascii a in
  if ((48 <=? n) && (n <=? 57))%nat then Some (Z.of_nat n - 48) else None.

(** Decimal digits, single underscores allowed between two digits. *)
Fixpoint parse_digits (acc : Z) (after_digit : bool) (s : list ascii)
  : option Z :=
  match s with
  | [] => if after_digit then Some acc else None
  | a :: rest =>
      if Ascii.eqb a "_" then
        if after_digit then parse_digits acc false rest else None
      else
        match digit_val a with
        | Some d => parse_digits (10 * acc + d) true rest
        | None => None
        end
  end.

(** The default limit on the number of digits [int()] converts. *)
Definition MAX_STR_DIGITS : nat := 4300.

Definition is_digit (a : ascii) : bool :=
  match digit_val a with Some _ => true | None => false end.

(** [parse_digits] under the limit of [MAX_STR_DIGITS] digits. *)
Definition parse_number (s : list ascii) : option Z :=
  if (MAX_STR_DIGITS <? List.length (filter is_digit s))%nat then None
  else parse_digits 0 false s.

(** [int(s)] on ASCII text, as Python 3.11 and later have it; [None] is
    [ValueError].  This is the instance the window's validators are run
    with; the property of the validators is stated for every parser. *)
Definition py_int (s : string) : option Z :=
  match int_strip (list_ascii_of_string s) with
  | [] => None
  | a :: rest =>
      if Ascii.eqb a "-" then option_map Z.opp (parse_number rest)
      else if Ascii.eqb a "+" then parse_number rest
      else parse_number (a :: rest)
  end.

(** What a validator leaves behind: the value it returns, the text of
    the warning box it showed (if any), and the entry field afterwards. *)
Record validated : Type := mkValidated {
  value : Z;
  warning : option string;
  entry_after : string
}.

(** [validate_top_n]; [int_of] is the builtin [int], [None] standing
    for the [ValueError] it raises. *)
Definition validate_top_n (int_of : string -> option Z)
    (top_n_var : string) : validated :=
  let fallback :=
    mkValidated DEFAULT_TOP_N
      (Some ("Top N is invalid. Using default: " +++ str_of_Z DEFAULT_TOP_N +++ "."))
      (str_of_Z DEFAULT_TOP_N) in
  match int_of top_n_var with
  | Some top_n =>
      if 0 <? top_n then mkValidated top_n None top_n_var else fallback
  | None => fallback
  end.

Definition validate_chunk_size (int_of : string -> option Z)
    (chunk_size_var : string) : validated :=
  let fallback :=
    mkValidated CHUNK_SIZE_DEFAULT
      (Some ("Chunk size is invalid. Using default: "
               +++ str_of_Z CHUNK_SIZE_DEFAULT +++ "."))
      (str_of_Z CHUNK_SIZE_DEFAULT) in
  match int_of chunk_size_var with
  | Some chunk_size =>
      if MIN_CHUNK_SIZE <=? chunk_size
      then mkValidated chunk_size None chunk_size_var
      else fallback
  | None => fallback
  end.

End Validation.

(** ** The engine: chunk loop, cancellation, report *)

Module Engine.
Import Pandas.

Definition nl : string := String (ascii_of_nat 10) EmptyString.

(** The dict [value_counters]: column name to Counter, in insertion
    order. *)
Definition counters : Type := list (string * Counter.t).

(** [d[k]]; [None] is [KeyError]. *)
Fixpoint dict_lookup (d : counters) (k : string) : option Counter.t :=
  match d with
  | [] => None
  | (k', c) :: rest => if String.eqb k k' then Some c else dict_lookup rest k
  end.

(** [d[k] = c] *)
Fixpoint dict_set (d : counters) (k : string) (c : Counter.t) : counters :=
  match d with
  | [] => [(k, c)]
  | (k', c') :: rest =>
      if String.eqb k k' then (k', c) :: rest
      else (k', c') :: dict_set rest k c
  end.

(** [{col: Counter() for col in header}] *)
Definition fresh_counters (header : list string) : counters :=
  fold_left (fun d col => dict_set d col []) header [].

(** A raised exception, carried as its message. *)
Inductive result (A : Type) : Type :=
| Ok (a : A)
| Raise (msg : string).
Arguments Ok {A} a.
Arguments Raise {A} msg.

Definition bind {A B : Type} (r : result A) (k : A -> result B) : result B :=
  match r with
  | Ok a => k a
  | Raise msg => Raise msg
  end.

Notation "x <- r ;; k" := (bind r (fun x => k))
  (at level 61, r at next level, right associativity).

(** [value_counters[col].update(m)]: the Counter stored under [col] is
    changed in place. *)
Definition update_counter (d : counters) (col : string)
    (m : list (scalar * Z)) : result counters :=
  match dict_lookup d col with
  | Some c => Ok (dict_set d col (Counter.update c m))
  | None => Raise ("'" +++ col +++ "'")
  end.

(** Lines 271-272: [for col in header: if col in chunk: ...] *)
Fixpoint update_columns (d : counters) (chunk : DataFrame)
    (cols : list string) : result counters :=
  match cols with
  | [] => Ok d
  | col :: rest =>
      if contains chunk col then
        d' <- update_counter d col
                (to_dict (value_counts (getcol chunk col))) ;;
        update_columns d' chunk rest
      else update_columns d chunk rest
  end.

(** The variables of line 262. *)
Record loop_state : Type := mkState {
  value_counters : counters;
  header : list string;
  chunk_num : nat
}.

Definition initial_state : loop_state := mkState [] [] 0.

(** Lines 267-272: the body of the loop after the cancellation check. *)
Definition process_chunk (st : loop_state) (chunk : DataFrame)
  : result loop_state :=
  let chunk_num' := S (chunk_num st) in
  let st1 :=
    match header st with
    | [] => mkState (fresh_counters (columns chunk)) (columns chunk) chunk_num'
    | _ :: _ => mkState (value_counters st) (header st) chunk_num'
    end in
  d <- update_columns (value_counters st1) chunk (header st1) ;;
  Ok (mkState d (header st1) chunk_num').

(** The cancellation flag.  [stop_event] is clear when the thread
    starts and only [stop_processing] writes it while the thread runs,
    so a run sees it go up at most once: [Some t] says it is set before
    the run's poll number [t] (polls counted from 0), [None] that it is
    never set. *)
Definition is_set (stop_at : option nat) (poll : nat) : bool :=
  match stop_at with
  | Some t => (t <=? poll)%nat
  | None => false
  end.

(** Lines 265-272.  Returns the state at exit, the number of polls made
    and the chunks the reader was never asked for. *)
Fixpoint chunk_loop (stop_at : option nat) (poll : nat) (st : loop_state)
    (reader : list DataFrame) : result (loop_state * nat * list DataFrame) :=
  match reader with
  | [] => Ok (st, poll, [])
  | chunk :: rest =>
      if is_set stop_at poll then Ok (st, S poll, rest)
      else
        st' <- process_chunk st chunk ;;
        chunk_loop stop_at (S poll) st' rest
  end.

(** [report.write(s)] on the [StringIO] buffer *)
Definition write (report s : string) : string := report +++ s.

Fixpoint repeat_string (n : nat) (s : string) : string :=
  match n with
  | O => EmptyString
  | S n' => s +++ repeat_string n' s
  end.

(** Line 303 *)
Fixpoint write_values (report : string) (pairs : list (scalar * Z)) : string :=
  match pairs with
  | [] => report
  | (value, count) :: rest =>
      write_values
        (write report ("  - Value: '" +++ str_of_scalar value
                         +++ "' | Count: " +++ str_of_Z count +++ nl))
        rest
  end.

(** Lines 300-304, [i] being the index [enumerate] gives. *)
Fixpoint write_columns (report : string) (i : nat) (items : counters)
    (top_n : Z) : string :=
  match items with
  | [] => report
  | (col, c) :: rest =>
      let report1 :=
        write report ("--- Column " +++ str_of_Z (Z.of_nat i + 1)
                        +++ ": '" +++ col +++ "' ---" +++ nl) in
      match c with
      | [] =>
          write_columns (write report1 ("No values found." +++ nl +++ nl))
            (S i) rest top_n
      | _ :: _ =>
          let report2 := write_values report1 (Counter.most_common c top_n) in
          write_columns (write report2 nl) (S i) rest top_n
      end
  end.

(** [generate_report]; [basename] is
    [os.path.basename(self.file_path.get())] and [now] the formatted
    [datetime.now()]. *)
Definition generate_report (basename now : string)
    (value_counters : counters) (top_n : Z) : string :=
  let report := EmptyString in
  let report :=
    write report ("--- CSV Analysis Report ---" +++ nl
                    +++ "File: " +++ basename +++ nl) in
  let report :=
    write report ("Analysis Date: " +++ now +++ nl
                    +++ "Top " +++ str_of_Z top_n +++ " values:" +++ nl
                    +++ repeat_string 40 "=" +++ nl +++ nl) in
  write_columns report 0 value_counters top_n.

(** What a run leaves behind. *)
Record run_result : Type := mkRun {
  report_content : string;
  success : bool;
  final_counters : counters;
  chunks_analyzed : nat;
  unread : list DataFrame
}.

Definition STOPPED : string := "Processing was stopped before completion.".

(** [process_csv_thread] from line 262 on, on a file with a header
    row.  [file] holds the parsed content of the file, [stop_at] the
    moment the flag is set.  The status line and the log are left out;
    [Raw.process_csv_thread] adds lines 244-260 and the typing of each
    chunk. *)
Definition process_csv_thread (basename now : string) (file : DataFrame)
    (top_n chunk_size : Z) (stop_at : option nat) : run_result :=
  let attempt :=
    reader <- match read_csv file chunk_size with
              | Some r => Ok r
              | None => Raise "'chunksize' must be an integer >=1"
              end ;;
    chunk_loop stop_at 0 initial_state reader in
  match attempt with
  | Ok (st, polls, rest) =>
      let report_content :=
        if is_set stop_at polls then STOPPED
        else generate_report basename now (value_counters st) top_n in
      let success := negb (is_set stop_at (S polls)) in
      mkRun report_content success (value_counters st) (chunk_num st) rest
  | Raise e =>
      let error_msg := "An error occurred during processing: " +++ e in
      mkRun ("ERROR:" +++ nl +++ nl +++ error_msg) false [] 0 []
  end.

End Engine.

(** ** Row-size estimator *)

Module Estimator.
Import Engine.

Definition FILE_SAMPLE_SIZE : nat := 50000.

(** A Python [float]: an IEEE 754 binary64 number. *)
Definition binary64 : Type := SpecFloat.spec_float.

(** A Python number as the estimate meets them: [int] or [float]. *)
Inductive number : Type :=
| PyInt (z : Z)
| PyFloat (f : binary64).

(** [float(z)]: the nearest binary64 number, ties to even. *)
Definition float_of_int (z : Z) : result binary64 :=
  match SpecFloat.binary_normalize 53 1024 z 0 false with
  | SpecFloat.S754_infinity _ => Raise "int too large to convert to float"
  | f => Ok f
  end.

(** [a / b] on two [int]s: the quotient rounded once to binary64. *)
Definition int_true_div (a b : Z) : result binary64 :=
  match b with
  | 0 => Raise "division by zero"
  | Zpos mb | Zneg mb =>
      let sign := xorb (a <? 0) (b <? 0) in
      match a with
      | 0 => Ok (SpecFloat.S754_zero sign)
      | Zpos ma | Zneg ma =>
          match SpecFloat.SFdiv 53 1024
                  (SpecFloat.S754_finite sign ma 0)
                  (SpecFloat.S754_finite false mb 0) with
          | SpecFloat.S754_infinity _ =>
              Raise "integer division result too large for a float"
          | f => Ok f
          end
      end
  end.

(** [n * x] with [n] an [int] *)
Definition int_mul (n : Z) (x : number) : result number :=
  match x with
  | PyInt z => Ok (PyInt (n * z))
  | PyFloat f =>
      fn <- float_of_int n ;;
      Ok (PyFloat (SpecFloat.SFmul 53 1024 fn f))
  end.

(** [x > 0] *)
Definition is_positive (x : number) : bool :=
  match x with
  | PyInt z => 0 <? z
  | PyFloat f => SpecFloat.SFltb (SpecFloat.S754_zero false) f
  end.

(** [n / x] with [n] an [int] and [x] not zero *)
Definition int_div (n : Z) (x : number) : result binary64 :=
  match x with
  | PyInt z => int_true_div n z
  | PyFloat f =>
      fn <- float_of_int n ;;
      Ok (SpecFloat.SFdiv 53 1024 fn f)
  end.

(** [math.ceil(f)] *)
Definition ceil (f : binary64) : result Z :=
  match f with
  | SpecFloat.S754_nan => Raise "cannot convert float NaN to integer"
  | SpecFloat.S754_infinity _ =>
      Raise "cannot convert float infinity to integer"
  | SpecFloat.S754_zero _ => Ok 0
  | SpecFloat.S754_finite s m e =>
      let v := if s then Zneg m else Zpos m in
      Ok (if 0 <=? e then v * 2 ^ e else - ((- v) / 2 ^ (- e)))
  end.

(** [raw_data.count(b'\n')] *)
Definition count_newlines (raw_data : list Byte.byte) : Z :=
  Z.of_nat (List.length (filter (Byte.eqb Byte.x0a) raw_data)).

Record estimate : Type := mkEstimate {
  avg_row_size : number;
  total_chunks : Z
}.

(** Lines 247 and 251-254 of [process_csv_thread]: [file_bytes] is the
    content of the file, of which [f.read(FILE_SAMPLE_SIZE)] takes the
    first 50000 bytes, [total_size] what [os.path.getsize] returned. *)
Definition estimate_chunks (file_bytes : list Byte.byte)
    (total_size chunk_size : Z) : result estimate :=
  let raw_data := firstn FILE_SAMPLE_SIZE file_bytes in
  let lines_in_sample := count_newlines raw_data in
  avg_row_size <-
    (if 0 <? lines_in_sample
     then q <- int_true_div (Z.of_nat (List.length raw_data)) lines_in_sample ;;
          Ok (PyFloat q)
     else Ok (PyInt 150)) ;;
  estimated_chunk_byte_size <- int_mul chunk_size avg_row_size ;;
  total_chunks <-
    (if is_positive estimated_chunk_byte_size
     then q <- int_div total_size estimated_chunk_byte_size ;;
          ceil q
     else Ok 1) ;;
  Ok (mkEstimate avg_row_size total_chunks).

(** The messages of the exceptions the estimate can raise:
    [OverflowError] three times and [ValueError]. *)
Definition raised : list string :=
  ["int too large to convert to float";
   "integer division result too large for a float";
   "cannot convert float infinity to integer";
   "cannot convert float NaN to integer"].

(** [f] is not-a-number or carries the sign [s]. *)
Definition has_sign (s : bool) (f : binary64) : Prop :=
  match f with
  | SpecFloat.S754_nan => True
  | SpecFloat.S754_zero s'
  | SpecFloat.S754_infinity s'
  | SpecFloat.S754_finite s' _ _ => s' = s
  end.

(** Samples the estimate is tried on: 500 lines of one character and a
    last line without its newline, 1001 bytes; and a sample of 3 bytes
    with 2 newlines. *)
Definition sample_1001 : list Byte.byte :=
  List.concat (repeat [Byte.x41; Byte.x0a] 500) ++ [Byte.x41].

Definition sample_3 : list Byte.byte := [Byte.x0a; Byte.x41; Byte.x0a].

End Estimator.

(** ** Notions the properties are stated with *)

Module Spec.

(** [desc a b]: entry [a] may stand before entry [b] in a ranking. *)
Definition desc (a b : scalar * Z) : Prop := snd b <= snd a.

Definition with_count (n : Z) (e : scalar * Z) : bool := snd e =? n.

(** [ranked c r]: [r] lists the entries of [c] by descending count,
    entries of equal count in the order [c] has them. *)
Definition ranked (c r : Counter.t) : Prop :=
  Permutation r c /\
  StronglySorted desc r /\
  forall n, filter (with_count n) r = filter (with_count n) c.

(** How often a value occurs among the cells of a column. *)
Definition occurrences (cells : list scalar) (v : scalar) : Z :=
  Z.of_nat (count_occ scalar_eq_dec cells v).





End Spec.

(** ** The layout of the report *)

Module Layout.
Import Engine.

Definition header_block (basename now : string) (top_n : Z) : string :=
  "--- CSV Analysis Report ---" +++ nl
  +++ "File: " +++ basename +++ nl
  +++ "Analysis Date: " +++ now +++ nl
  +++ "Top " +++ str_of_Z top_n +++ " values:" +++ nl
  +++ repeat_string 40 "=" +++ nl +++ nl.

Definition value_line (e : scalar * Z) : string :=
  "  - Value: '" +++ str_of_scalar (fst e)
  +++ "' | Count: " +++ str_of_Z (snd e) +++ nl.

Fixpoint value_lines (listed : list (scalar * Z)) : string :=
  match listed with
  | [] => EmptyString
  | e :: rest => value_line e +++ value_lines rest
  end.

Definition title (i : nat) (col : string) : string :=
  "--- Column " +++ str_of_Z (Z.of_nat i + 1)
  +++ ": '" +++ col +++ "' ---" +++ nl.

(** The section of the column with index [i]: its title, then the
    placeholder for an empty map, or the listed pairs and a blank
    line. *)
Definition section (i : nat) (col : string) (c : Counter.t)
    (listed : list (scalar * Z)) : string :=
  title i col +++
  match c with
  | [] => "No values found." +++ nl +++ nl
  | _ :: _ => value_lines listed +++ nl
  end.

Fixpoint sections (i : nat) (d : counters) (top_n : Z) : string :=
  match d with
  | [] => EmptyString
  | (col, c) :: rest =>
      section i col c (Counter.most_common c top_n)
      +++ sections (S i) rest top_n
  end.

End Layout.

(** ** The run seen chunk by chunk and column by column *)

Module Trace.
Import Pandas Engine.

(** The state after the loop body has run on each of [chunks] in turn. *)
Fixpoint merge_chunks (st : loop_state) (chunks : list DataFrame)
  : result loop_state :=
  match chunks with
  | [] => Ok st
  | chunk :: rest =>
      st' <- process_chunk st chunk ;;
      merge_chunks st' rest
  end.

(** The cells of column [col] in [chunks], top to bottom. *)
Definition column_cells (chunks : list DataFrame) (col : string)
  : list scalar :=
  flat_map (fun chunk => getcol chunk col) chunks.

(** What line 272 does to the Counter of column [col]. *)
Definition step_counter (col : string) (c : Counter.t) (chunk : DataFrame)
  : Counter.t :=
  Counter.update c (to_dict (value_counts (getcol chunk col))).

(** The Counter of column [col] after [chunks], from [acc]. *)
Definition column_counter (acc : Counter.t) (chunks : list DataFrame)
    (col : string) : Counter.t :=
  fold_left (step_counter col) chunks acc.

(** The state holds, for the columns [cols], the counters of the
    chunks [seen]. *)
Definition aggregated (cols : list string) (seen : list DataFrame)
    (st : loop_state) : Prop :=
  header st = cols /\
  map fst (value_counters st) = cols /\
  chunk_num st = List.length seen /\
  forall col, In col cols ->
    dict_lookup (value_counters st) col = Some (column_counter [] seen col).

(** The Counter stored for [col], empty when there is none. *)
Definition counter_of (d : counters) (col : string) : Counter.t :=
  match dict_lookup d col with
  | Some c => c
  | None => []
  end.

(** The state at the chunk boundary after [k] chunks of [reader]. *)
Definition state_at (reader : list DataFrame) (k : nat) : result loop_state :=
  merge_chunks initial_state (firstn k reader).

(** How many chunks a run merges: all of them, or those checked before
    the flag went up. *)
Definition merged_count (stop_at : option nat) (len : nat) : nat :=
  match stop_at with
  | Some t => Nat.min t len
  | None => len
  end.

(** Number of data rows in [chunks]. *)
Definition row_count (chunks : list DataFrame) : Z :=
  Z.of_nat (List.length (List.concat (map rows chunks))).

(** Number of cells of a column that are not missing. *)
Definition present (cells : list scalar) : Z :=
  Z.of_nat (List.length (filter notna cells)).

End Trace.

(** ** Files the properties are tried on *)

(** A column of 998 cells: [a], then 499 times [b], then 498 times [a].
    Both values occur 499 times and [a] occurs first. *)
Definition tie_file : Pandas.DataFrame :=
  Pandas.mkDataFrame ["c"]
    (map (fun v => [v])
       (SStr "a" :: repeat (SStr "b") 499 ++ repeat (SStr "a") 498)).

(** The chunks of [tie_file] for a chunk size. *)
Definition tie_reader (chunk_size : Z) : list Pandas.DataFrame :=
  match Pandas.read_csv tie_file chunk_size with
  | Some reader => reader
  | None => []
  end.

(** A column of two cells, the first one missing: what pandas reads from
    the three lines [a], [NA], [x]. *)
Definition gap_file : Pandas.DataFrame :=
  Pandas.mkDataFrame ["a"] [[NaN]; [SStr "x"]].

(** ** File names for the saved report and log *)

Module Files.

(** The nine characters of the class in the pattern of line 307:
    backslash, slash, star, question mark, colon, double quote (code
    34), the two angle brackets and the bar. *)
Definition forbidden (a : ascii) : bool :=
  existsb (Ascii.eqb a)
    ["\"; "/"; "*"; "?"; ":"; ascii_of_nat 34; "<"; ">"; "|"]%char.

(** [sanitize_filename]: [re.sub] with an empty replacement deletes
    every character of the class. *)
Fixpoint sanitize_filename (filename : string) : string :=
  match filename with
  | EmptyString => EmptyString
  | String a rest =>
      if forbidden a then sanitize_filename rest
      else String a (sanitize_filename rest)
  end.

(** Line 314.  [stem] is
    [os.path.splitext(os.path.basename(self.file_path.get()))[0]] and
    [stamp] is [datetime.now().strftime('%Y%m%d_%H%M%S')]. *)
Definition default_report_filename (stem : string) (top_n_val : Z)
    (stamp : string) : string :=
  "Report_" +++ sanitize_filename stem +++ "_Top" +++ str_of_Z top_n_val
  +++ "_" +++ stamp +++ ".txt".

(** Line 326 *)
Definition default_log_filename (stem stamp : string) : string :=
  "Log_" +++ sanitize_filename stem +++ "_" +++ stamp +++ ".log".

(** A character [strftime('%Y%m%d_%H%M%S')] can produce. *)
Definition stamp_char (a : ascii) : bool :=
  match Validation.digit_val a with
  | Some _ => true
  | None => Ascii.eqb a "_"
  end.

Fixpoint all_chars (p : ascii -> bool) (s : string) : bool :=
  match s with
  | EmptyString => true
  | String a rest => p a && all_chars p rest
  end.

(** No character of the class occurs in [s]. *)
Definition clean (s : string) : bool :=
  all_chars (fun a => negb (forbidden a)) s.

End Files.

(** ** The window's controls *)

Module Gui.
Import Engine.

(** The part of the application object the engine's callers read and
    write: the entry fields, the buttons ([true] is ['normal'], [false]
    is ['disabled']), the report panel, the flag, and the texts of the
    message boxes shown so far. *)
Record app : Type := mkApp {
  file_path : string;
  top_n_var : string;
  chunk_size_var : string;
  last_used_top_n : option Z;
  process_button : bool;
  stop_button : bool;
  save_report_button : bool;
  save_log_button : bool;
  report_text : string;
  stop_event : bool;
  boxes : list string
}.

(** [validate_top_n] as a method: the entry field and the message
    boxes change with it. *)
Definition validate_top_n (g : app) : Z * app :=
  let v := Validation.validate_top_n Validation.py_int (top_n_var g) in
  (Validation.value v,
   mkApp (file_path g) (Validation.entry_after v) (chunk_size_var g)
     (last_used_top_n g) (process_button g) (stop_button g)
     (save_report_button g) (save_log_button g) (report_text g)
     (stop_event g)
     (boxes g ++ match Validation.warning v with
                 | Some w => [w]
                 | None => []
                 end)).

Definition validate_chunk_size (g : app) : Z * app :=
  let v := Validation.validate_chunk_size Validation.py_int (chunk_size_var g) in
  (Validation.value v,
   mkApp (file_path g) (top_n_var g) (Validation.entry_after v)
     (last_used_top_n g) (process_button g) (stop_button g)
     (save_report_button g) (save_log_button g) (report_text g)
     (stop_event g)
     (boxes g ++ match Validation.warning v with
                 | Some w => [w]
                 | None => []
                 end)).

(** [start_processing]: the state it leaves and, when it starts the
    thread, the arguments [(filepath, top_n, chunk_size)] it passes. *)
Definition start_processing (g : app) : app * option (string * Z * Z) :=
  match file_path g with
  | EmptyString =>
      (mkApp (file_path g) (top_n_var g) (chunk_size_var g)
         (last_used_top_n g) (process_button g) (stop_button g)
         (save_report_button g) (save_log_button g) (report_text g)
         (stop_event g)
         (boxes g ++ ["Please select a CSV file first."]),
       None)
  | String _ _ =>
      let (top_n, g1) := validate_top_n g in
      let (chunk_size, g2) := validate_chunk_size g1 in
      (mkApp (file_path g2) (top_n_var g2) (chunk_size_var g2)
         (Some top_n) false true false false (report_text g2)
         false (boxes g2),
       Some (file_path g2, top_n, chunk_size))
  end.

(** [stop_processing]; [alive] is
    [self.processing_thread and self.processing_thread.is_alive()]. *)
Definition stop_processing (g : app) (alive : bool) : app :=
  if alive then
    mkApp (file_path g) (top_n_var g) (chunk_size_var g)
      (last_used_top_n g) (process_button g) false
      (save_report_button g) (save_log_button g) (report_text g)
      true (boxes g)
  else g.

(** [str.strip()] on ASCII text *)
Definition py_strip (s : string) : string :=
  string_of_list_ascii (Validation.strip (list_ascii_of_string s)).

(** Line 293, as the truth value the button depends on. *)
Definition is_content_present (content : string) : bool :=
  match py_strip content with
  | EmptyString => false
  | String _ _ =>
      negb (String.prefix "Processing was stopped" content)
      && negb (String.prefix "ERROR:" content)
  end.

Definition update_report_text (g : app) (content : string) : app :=
  mkApp (file_path g) (top_n_var g) (chunk_size_var g)
    (last_used_top_n g) (process_button g) (stop_button g)
    (is_content_present content) (save_log_button g) content
    (stop_event g) (boxes g).

Definition enable_controls_after_processing (g : app) (success : bool)
  : app :=
  mkApp (file_path g) (top_n_var g) (chunk_size_var g)
    (last_used_top_n g) true false
    (if success then save_report_button g else false) true
    (report_text g) (stop_event g) (boxes g).

(** What the end of [process_csv_thread] does to the window: the
    callbacks it posts, in the order it posts them
    ([update_report_text], then [enable_controls_after_processing]),
    and the [stop_event.clear()] of its [finally]. *)
Definition thread_done (g : app) (r : run_result) : app :=
  let g1 := update_report_text g (report_content r) in
  let g2 := enable_controls_after_processing g1 (success r) in
  mkApp (file_path g2) (top_n_var g2) (chunk_size_var g2)
    (last_used_top_n g2) (process_button g2) (stop_button g2)
    (save_report_button g2) (save_log_button g2) (report_text g2)
    false (boxes g2).

(** Line 313: [self.last_used_top_n or self.validate_top_n()] *)
Definition top_n_val (g : app) : Z * app :=
  match last_used_top_n g with
  | Some n => if n =? 0 then validate_top_n g else (n, g)
  | None => validate_top_n g
  end.

(** Line 310: the text [save_report] writes, the panel's content
    (which Tk ends with a newline) stripped. *)
Definition saved_report (g : app) : string :=
  py_strip (report_text g +++ nl).

(** [s] ends with a character that is no white space followed by two
    newlines. *)
Definition ends_blank (s : string) : Prop :=
  exists body c,
    s = body +++ String c (nl +++ nl) /\ Validation.is_space c = false.

End Gui.

(** ** The dependency check at start-up *)

Module Deps.

(** The [for package in missing] loop of lines 342-344: whether every
    install succeeded, and the packages pip was run for. *)
Fixpoint install_missing (pip_ok : string -> bool) (missing : list string)
  : bool * list string :=
  match missing with
  | [] => (true, [])
  | package :: rest =>
      if pip_ok package then
        let (ok, ran) := install_missing pip_ok rest in
        (ok, package :: ran)
      else (false, [package])
  end.

Record outcome : Type := mkOutcome {
  result : bool;
  asked : bool;
  installed_with_pip : list string
}.

(** [check_and_install_dependencies].  [found pkg] is
    [importlib.util.find_spec(pkg) is not None], [answer] what the user
    replies to the question, [pip_ok pkg] whether [pip install pkg]
    exits with success. *)
Definition check_and_install_dependencies (found : string -> bool)
    (answer : bool) (pip_ok : string -> bool) (packages : list string)
  : outcome :=
  let missing := filter (fun pkg => negb (found pkg)) packages in
  match missing with
  | [] => mkOutcome true false []
  | _ :: _ =>
      if answer then
        let (ok, ran) := install_missing pip_ok missing in
        mkOutcome ok true ran
      else mkOutcome false true []
  end.

End Deps.

(** ** Reading a file of raw fields: each chunk typed on its own *)

Module Raw.
Import Pandas Engine.

(** A field of a data row as pandas' reader classifies its text under
    the options of line 264: a missing marker or an empty field; text it
    reads as an integer, with that integer; text it reads neither as a
    number, nor as a boolean, nor as a missing marker; any other text
    (a floating-point number or a boolean). *)
Inductive field : Type :=
| FMissing
| FInt (text : string) (z : Z)
| FText (text : string)
| FOther (text : string).

(** A file with a header row: the column names as pandas returns them
    and the data rows, blank lines left out as pandas skips them. *)
Record file : Type := mkFile {
  names : list string;
  lines : list (list field)
}.

Definition in_int64 (z : Z) : bool :=
  (- 2 ^ 63 <=? z) && (z <? 2 ^ 63).

Definition is_int (f : field) : bool :=
  match f with FInt _ z => in_int64 z | _ => false end.

Definition is_text (f : field) : bool :=
  match f with FText _ => true | _ => false end.

Definition is_missing (f : field) : bool :=
  match f with FMissing => true | _ => false end.

(** Fields whose typing is not modelled: floating-point numbers,
    booleans, integers outside int64. *)
Definition not_modelled (f : field) : bool :=
  match f with
  | FOther _ => true
  | FInt _ z => negb (in_int64 z)
  | _ => false
  end.

Inductive dtype : Type := Int64 | Object.

(** The type pandas gives a column of one chunk: object, every field
    kept as its text, as soon as one field is text; int64 when every
    field is an integer.  A column of integers and missing fields
    becomes float64, which is not modelled ([None]), as a column with
    floating-point numbers or booleans and no text is not; a column of
    missing fields only holds nothing but NaN. *)
Definition infer_dtype (cells : list field) : option dtype :=
  if existsb is_text cells then Some Object
  else if existsb not_modelled cells then None
  else if existsb is_int cells then
    if existsb is_missing cells then None else Some Int64
  else Some Object.

Definition convert (d : dtype) (f : field) : scalar :=
  match d, f with
  | Int64, FInt _ z => SInt z
  | Object, FInt text _ => SStr text
  | Object, FText text => SStr text
  | Object, FOther text => SStr text
  | _, _ => NaN
  end.

(** A row too short for a column reads as missing there. *)
Definition cell (j : nat) (row : list field) : field := nth j row FMissing.

Definition column (j : nat) (rows : list (list field)) : list field :=
  map (cell j) rows.

Definition dtype_or_object (d : option dtype) : dtype :=
  match d with Some d => d | None => Object end.

Definition no_dtype (jd : nat * option dtype) : bool :=
  match snd jd with None => true | Some _ => false end.

(** One chunk as pandas parses it: the type of each column is inferred
    from the fields of the chunk.  A row with more fields than the
    header is not modelled ([None]). *)
Definition type_chunk (names : list string) (rows : list (list field))
  : option DataFrame :=
  let width := List.length names in
  let dtypes :=
    map (fun j => (j, infer_dtype (column j rows))) (seq 0 width) in
  if existsb (fun r => (width <? List.length r)%nat) rows then None
  else if existsb no_dtype dtypes then None
  else
    Some (mkDataFrame names
            (map (fun r =>
                    map (fun jd =>
                           convert (dtype_or_object (snd jd)) (cell (fst jd) r))
                      dtypes)
               rows)).

(** The rows cut into pieces of [n] rows. *)
Fixpoint split (fuel n : nat) (rs : list (list field))
  : list (list (list field)) :=
  match fuel with
  | O => []
  | S fuel' =>
      match rs with
      | [] => []
      | _ :: _ => firstn n rs :: split fuel' n (skipn n rs)
      end
  end.

Fixpoint all_some {A : Type} (l : list (option A)) : option (list A) :=
  match l with
  | [] => Some []
  | None :: _ => None
  | Some a :: rest => option_map (cons a) (all_some rest)
  end.

(** [pd.read_csv(f, chunksize=n, low_memory=False)] and the chunks the
    reader then yields.  [Some (Raise _)]: pandas raises, for a chunk
    size below 1 ([ValueError]) or a file without a header
    ([EmptyDataError]).  [None]: not modelled, a chunk size that does
    not fit 64 bits or a file with a chunk that is not modelled. *)
Definition read_csv (f : file) (chunksize : Z)
  : option (result (list DataFrame)) :=
  if chunksize <? 1 then Some (Raise "'chunksize' must be an integer >=1")
  else if 2 ^ 63 <=? chunksize then None
  else
    match names f with
    | [] => Some (Raise "No columns to parse from file")
    | _ :: _ =>
        match lines f with
        | [] => Some (Ok [mkDataFrame (names f) []])
        | _ :: _ =>
            option_map Ok
              (all_some
                 (map (type_chunk (names f))
                    (split (List.length (lines f)) (Z.to_nat chunksize)
                       (lines f))))
        end
    end.

(** Lines 284-287: the result of a run that raised. *)
Definition failed (e : string) : run_result :=
  let error_msg := "An error occurred during processing: " +++ e in
  mkRun ("ERROR:" +++ nl +++ nl +++ error_msg) false [] 0 [].

(** Lines 274-282 *)
Definition finished (basename now : string) (top_n : Z)
    (stop_at : option nat) (x : loop_state * nat * list DataFrame)
  : run_result :=
  let '(st, polls, rest) := x in
  let report_content :=
    if is_set stop_at polls then STOPPED
    else generate_report basename now (value_counters st) top_n in
  let success := negb (is_set stop_at (S polls)) in
  mkRun report_content success (value_counters st) (chunk_num st) rest.

(** [process_csv_thread] on a file of raw fields.  [sniffed] is what
    lines 244-248 give, the content of the file and its size, or the
    exception one of them raised; [opened] says whether the [open] of
    line 263 raised.  [None]: the file is not modelled. *)
Definition process_csv_thread (basename now : string)
    (sniffed : result (list Byte.byte * Z)) (opened : result unit)
    (f : file) (top_n chunk_size : Z) (stop_at : option nat)
  : option run_result :=
  match sniffed with
  | Raise e => Some (failed e)
  | Ok (file_bytes, total_size) =>
      match Estimator.estimate_chunks file_bytes total_size chunk_size with
      | Raise e => Some (failed e)
      | Ok _ =>
          match opened with
          | Raise e => Some (failed e)
          | Ok _ =>
              match read_csv f chunk_size with
              | None => None
              | Some (Raise e) => Some (failed e)
              | Some (Ok reader) =>
                  match chunk_loop stop_at 0 initial_state reader with
                  | Ok x => Some (finished basename now top_n stop_at x)
                  | Raise e => Some (failed e)
                  end
              end
          end
      end
  end.

(** *** Files every chunk of which is typed alike *)

(** The typing of a field in a column of integers or in a column of
    text. *)
Definition convert_uniform (f : field) : scalar :=
  match f with
  | FInt _ z => SInt z
  | FText text => SStr text
  | _ => NaN
  end.

(** A column of integers (within int64, none missing), or a column of
    text and missing fields. *)
Definition uniform_column (cells : list field) : bool :=
  forallb is_int cells
  || forallb (fun f => is_text f || is_missing f) cells.

(** No row is longer than the header and every column is uniform. *)
Definition uniform (f : file) : bool :=
  let width := List.length (names f) in
  forallb (fun r => (List.length r <=? width)%nat) (lines f)
  && forallb (fun j => uniform_column (column j (lines f))) (seq 0 width).

Definition typed_row (width : nat) (r : list field) : list scalar :=
  map (fun j => convert_uniform (cell j r)) (seq 0 width).

(** The table pandas reads from a uniform file, whatever the chunk
    size. *)
Definition typed (f : file) : DataFrame :=
  mkDataFrame (names f) (map (typed_row (List.length (names f))) (lines f)).

(** The fields of a column over all data rows of a uniform file, as
    pandas types them. *)
Definition cells (f : file) (col : string) : list scalar :=
  match col_index col (names f) with
  | Some j => map convert_uniform (column j (lines f))
  | None => []
  end.

(** *** Files the properties are tried on *)




(** A column of text: [a], 499 times [b], 498 times [a]. *)
Definition tie_raw : file :=
  mkFile ["c"]
    (map (fun v => [v])
       (FText "a" :: repeat (FText "b") 499 ++ repeat (FText "a") 498)).

Definition tie_bytes : list Byte.byte :=
  [Byte.x63; Byte.x0a; Byte.x61; Byte.x0a]
  ++ List.concat (repeat [Byte.x62; Byte.x0a] 499)
  ++ List.concat (repeat [Byte.x61; Byte.x0a] 498).





End Raw.

(** * Facts about the embedding *)

(** ** Counters *)

Module CounterFacts.
Import Counter Spec.

Lemma scalar_eqb_refl (k : scalar) : scalar_eqb k k = true.
Proof. unfold scalar_eqb. destruct (scalar_eq_dec k k); congruence. Qed.

Lemma scalar_eqb_eq (a b : scalar) : scalar_eqb a b = true <-> a = b.
Proof. unfold scalar_eqb. destruct (scalar_eq_dec a b); split; congruence. Qed.

Lemma scalar_eqb_neq (a b : scalar) : a <> b -> scalar_eqb a b = false.
Proof. unfold scalar_eqb. destruct (scalar_eq_dec a b); congruence. Qed.

Ltac case_key a b :=
  let E := fresh "E" in
  destruct (scalar_eq_dec a b) as [E | E];
  [ subst; rewrite ?scalar_eqb_refl in *
  | rewrite ?(scalar_eqb_neq a b E) in * ].

Lemma get_notin (c : t) (k : scalar) (d : Z) :
  ~ In k (keys c) -> get c k d = d.
Proof.
  induction c as [| [k' v] c IH]; simpl; intros H; [reflexivity |].
  case_key k k'; [tauto | apply IH; tauto].
Qed.

Lemma get_setitem_same (c : t) (k : scalar) (v d : Z) :
  get (setitem c k v) k d = v.
Proof.
  induction c as [| [k' v'] c IH]; simpl.
  - now rewrite scalar_eqb_refl.
  - case_key k k'; simpl.
    + now rewrite scalar_eqb_refl.
    + now rewrite (scalar_eqb_neq _ _ E).
Qed.

Lemma get_setitem_other (c : t) (k k' : scalar) (v d : Z) :
  k' <> k -> get (setitem c k v) k' d = get c k' d.
Proof.
  intros Hne. induction c as [| [k1 v1] c IH]; simpl.
  - now rewrite (scalar_eqb_neq _ _ Hne).
  - case_key k k1; simpl.
    + now rewrite (scalar_eqb_neq _ _ Hne).
    + now rewrite IH.
Qed.

Lemma keys_setitem_in (c : t) (k : scalar) (v : Z) :
  In k (keys c) -> keys (setitem c k v) = keys c.
Proof.
  induction c as [| [k1 v1] c IH]; simpl; intros H; [tauto |].
  case_key k k1; simpl; [reflexivity |].
  f_equal. apply IH. destruct H; congruence.
Qed.

Lemma setitem_notin (c : t) (k : scalar) (v : Z) :
  ~ In k (keys c) -> setitem c k v = c ++ [(k, v)].
Proof.
  induction c as [| [k1 v1] c IH]; simpl; intros H; [reflexivity |].
  case_key k k1; [tauto |].
  f_equal. apply IH. tauto.
Qed.

Lemma in_keys_setitem (c : t) (k k' : scalar) (v : Z) :
  In k' (keys (setitem c k v)) <-> k' = k \/ In k' (keys c).
Proof.
  destruct (in_dec scalar_eq_dec k (keys c)) as [Hin | Hni].
  - rewrite keys_setitem_in by assumption. intuition (subst; auto).
  - rewrite setitem_notin by assumption. unfold keys.
    rewrite map_app, in_app_iff. simpl. intuition (subst; auto).
Qed.

Lemma NoDup_keys_setitem (c : t) (k : scalar) (v : Z) :
  NoDup (keys c) -> NoDup (keys (setitem c k v)).
Proof.
  intros Hnd. destruct (in_dec scalar_eq_dec k (keys c)) as [Hin | Hni].
  - now rewrite keys_setitem_in.
  - rewrite setitem_notin by assumption. unfold keys.
    rewrite map_app. simpl.
    apply NoDup_incl_NoDup with (l := k :: map fst c).
    + constructor; assumption.
    + rewrite length_app. simpl. lia.
    + intros x Hx. apply in_app_iff. simpl in *. tauto.
Qed.

Lemma In_get (c : t) (k : scalar) (v d : Z) :
  NoDup (keys c) -> In (k, v) c -> get c k d = v.
Proof.
  induction c as [| [k1 v1] c IH]; simpl; intros Hnd Hin; [tauto |].
  inversion Hnd as [| ? ? Hni Hnd']; subst.
  destruct Hin as [H | H].
  - inversion H; subst. now rewrite scalar_eqb_refl.
  - case_key k k1.
    + exfalso. apply Hni. change k1 with (fst (k1, v)). now apply in_map.
    + now apply IH.
Qed.

Lemma get_In (c : t) (k : scalar) (d : Z) :
  In k (keys c) -> In (k, get c k d) c.
Proof.
  induction c as [| [k1 v1] c IH]; simpl; intros Hin; [tauto |].
  case_key k k1; [now left |].
  right. apply IH. destruct Hin; congruence.
Qed.

(** Two counters with distinct keys and the same lookups hold the same
    entries. *)
Lemma Permutation_of_get (c1 c2 : t) :
  NoDup (keys c1) -> NoDup (keys c2) ->
  (forall k, In k (keys c1) <-> In k (keys c2)) ->
  (forall k, get c1 k 0 = get c2 k 0) ->
  Permutation c1 c2.
Proof.
  intros N1 N2 Hk Hg.
  apply NoDup_Permutation.
  - eapply NoDup_map_inv. exact N1.
  - eapply NoDup_map_inv. exact N2.
  - intros [k v]. split; intros Hin.
    + assert (Hv : get c1 k 0 = v) by now apply In_get.
      rewrite Hg in Hv. rewrite <- Hv. apply get_In. apply Hk.
      change k with (fst (k, v)). now apply in_map.
    + assert (Hv : get c2 k 0 = v) by now apply In_get.
      rewrite <- Hg in Hv. rewrite <- Hv. apply get_In. apply Hk.
      change k with (fst (k, v)). now apply in_map.
Qed.

Lemma total_app (c1 c2 : t) : total (c1 ++ c2) = total c1 + total c2.
Proof. induction c1 as [| [k v] c1 IH]; simpl; [reflexivity | rewrite IH; lia]. Qed.

Lemma total_setitem (c : t) (k : scalar) (v : Z) :
  NoDup (keys c) -> total (setitem c k v) = total c - get c k 0 + v.
Proof.
  induction c as [| [k1 v1] c IH]; simpl; intros Hnd; [lia |].
  inversion Hnd as [| ? ? Hni Hnd']; subst.
  case_key k k1; simpl; [lia |].
  rewrite IH by assumption. lia.
Qed.

Lemma total_Permutation (c1 c2 : t) :
  Permutation c1 c2 -> total c1 = total c2.
Proof. induction 1; simpl; lia. Qed.

(** *** [sort_desc] is a stable sort by descending count *)

Lemma insert_desc_perm (x : scalar * Z) (l : t) :
  Permutation (insert_desc x l) (x :: l).
Proof.
  induction l as [| y l IH]; simpl; [reflexivity |].
  destruct (snd x <? snd y).
  - rewrite IH. apply perm_swap.
  - reflexivity.
Qed.

Lemma sort_desc_perm (l : t) : Permutation (sort_desc l) l.
Proof.
  induction l as [| x l IH]; simpl; [reflexivity |].
  rewrite insert_desc_perm. now constructor.
Qed.

Lemma insert_desc_sorted (x : scalar * Z) (l : t) :
  StronglySorted desc l -> StronglySorted desc (insert_desc x l).
Proof.
  induction 1 as [| y l Hs IH Hall]; simpl.
  - repeat constructor.
  - destruct (snd x <? snd y) eqn:E.
    + constructor; [assumption |].
      eapply Permutation_Forall.
      * symmetry. apply insert_desc_perm.
      * constructor; [unfold desc; lia | assumption].
    + constructor; [now constructor |].
      constructor; [unfold desc; lia |].
      eapply Forall_impl; [| exact Hall].
      unfold desc. intros a Ha. lia.
Qed.

Lemma sort_desc_sorted (l : t) : StronglySorted desc (sort_desc l).
Proof.
  induction l as [| x l IH]; simpl; [constructor |].
  now apply insert_desc_sorted.
Qed.

Lemma insert_desc_stable (n : Z) (x : scalar * Z) (l : t) :
  StronglySorted desc l ->
  filter (with_count n) (insert_desc x l) = filter (with_count n) (x :: l).
Proof.
  induction 1 as [| y l Hs IH Hall]; [reflexivity |].
  simpl insert_desc. destruct (snd x <? snd y) eqn:E; [| reflexivity].
  apply Z.ltb_lt in E.
  simpl filter at 1. rewrite IH. simpl. unfold with_count.
  destruct (snd y =? n) eqn:Ey; destruct (snd x =? n) eqn:Ex;
    try reflexivity.
  apply Z.eqb_eq in Ey, Ex. lia.
Qed.

Lemma sort_desc_stable (n : Z) (l : t) :
  filter (with_count n) (sort_desc l) = filter (with_count n) l.
Proof.
  induction l as [| x l IH]; [reflexivity |].
  simpl sort_desc. rewrite insert_desc_stable by apply sort_desc_sorted.
  simpl. now rewrite IH.
Qed.


Lemma get_Permutation (c1 c2 : t) (k : scalar) (d : Z) :
  NoDup (keys c1) -> Permutation c1 c2 -> get c1 k d = get c2 k d.
Proof.
  intros N1 P.
  assert (N2 : NoDup (keys c2)).
  { eapply Permutation_NoDup; [| exact N1]. now apply Permutation_map. }
  destruct (in_dec scalar_eq_dec k (keys c1)) as [Hin | Hni].
  - symmetry. apply In_get; [assumption |].
    eapply Permutation_in; [exact P |]. now apply get_In.
  - rewrite get_notin by assumption. symmetry. apply get_notin.
    intros H. apply Hni. eapply Permutation_in; [| exact H].
    symmetry. now apply Permutation_map.
Qed.

(** *** [Counter.update] adds counts *)

Lemma fold_add_get (m c : t) (k : scalar) :
  NoDup (keys m) ->
  get (fold_left add_item m c) k 0 = get c k 0 + get m k 0.
Proof.
  revert c. induction m as [| [k1 v1] m IH]; simpl; intros c Hnd; [lia |].
  inversion Hnd as [| ? ? Hni Hnd']; subst.
  rewrite IH by assumption. unfold add_item. simpl.
  case_key k k1.
  - rewrite get_setitem_same, (get_notin m) by assumption. lia.
  - rewrite get_setitem_other by assumption. reflexivity.
Qed.

Lemma fold_put_get (m c : t) (k : scalar) :
  NoDup (keys m) ->
  get (fold_left put_item m c) k 0 =
  if in_dec scalar_eq_dec k (keys m) then get m k 0 else get c k 0.
Proof.
  revert c. induction m as [| [k1 v1] m IH]; simpl; intros c Hnd;
    [reflexivity |].
  inversion Hnd as [| ? ? Hni Hnd']; subst.
  rewrite IH by assumption. unfold put_item. simpl.
  case_key k k1.
  - destruct (scalar_eq_dec k1 k1); [| congruence].
    destruct (in_dec scalar_eq_dec k1 (keys m)); [tauto |].
    apply get_setitem_same.
  - destruct (scalar_eq_dec k1 k); [congruence |].
    destruct (in_dec scalar_eq_dec k (keys m)); [reflexivity |].
    now apply get_setitem_other.
Qed.

Lemma fold_setitem_keys (f : t -> scalar * Z -> Z) (m c : t) (k : scalar) :
  In k (keys (fold_left (fun acc kv => setitem acc (fst kv) (f acc kv)) m c))
  <-> In k (keys c) \/ In k (keys m).
Proof.
  revert c. induction m as [| [k1 v1] m IH]; simpl; intros c; [tauto |].
  rewrite IH, in_keys_setitem. simpl. intuition congruence.
Qed.

Lemma fold_setitem_NoDup (f : t -> scalar * Z -> Z) (m c : t) :
  NoDup (keys c) ->
  NoDup (keys (fold_left (fun acc kv => setitem acc (fst kv) (f acc kv)) m c)).
Proof.
  revert c. induction m as [| [k1 v1] m IH]; simpl; intros c Hnd;
    [assumption |].
  apply IH. now apply NoDup_keys_setitem.
Qed.

Lemma update_as_fold (c m : t) :
  update c m =
  match c with
  | [] => fold_left put_item m c
  | _ :: _ => fold_left add_item m c
  end.
Proof. destruct c; reflexivity. Qed.

Lemma update_get (c m : t) (k : scalar) :
  NoDup (keys m) -> get (update c m) k 0 = get c k 0 + get m k 0.
Proof.
  intros Hnd. rewrite update_as_fold. destruct c as [| e c].
  - rewrite fold_put_get by assumption. simpl.
    destruct (in_dec scalar_eq_dec k (keys m)); [reflexivity |].
    now rewrite get_notin.
  - now apply fold_add_get.
Qed.

Lemma update_keys (c m : t) (k : scalar) :
  In k (keys (update c m)) <-> In k (keys c) \/ In k (keys m).
Proof.
  rewrite update_as_fold. destruct c as [| e c].
  - apply (fold_setitem_keys (fun _ kv => snd kv)).
  - apply (fold_setitem_keys (fun acc kv => snd kv + get acc (fst kv) 0)).
Qed.

Lemma update_NoDup (c m : t) :
  NoDup (keys c) -> NoDup (keys (update c m)).
Proof.
  intros Hnd. rewrite update_as_fold. destruct c as [| e c].
  - now apply (fold_setitem_NoDup (fun _ kv => snd kv)).
  - now apply (fold_setitem_NoDup
                 (fun acc kv => snd kv + get acc (fst kv) 0)).
Qed.

(** [dict.update] into a dict that has none of the keys appends. *)
Lemma dict_update_fresh (m c : t) :
  NoDup (keys m) ->
  (forall k, In k (keys m) -> ~ In k (keys c)) ->
  dict_update c m = c ++ m.
Proof.
  unfold dict_update.
  revert c. induction m as [| [k1 v1] m IH]; simpl; intros c Hnd Hd.
  - now rewrite app_nil_r.
  - inversion Hnd as [| ? ? Hni Hnd']; subst.
    change (put_item c (k1, v1)) with (setitem c k1 v1).
    rewrite setitem_notin by (apply Hd; now left).
    rewrite IH; [now rewrite <- app_assoc | assumption |].
    intros k Hk. unfold keys. rewrite map_app, in_app_iff. simpl.
    intros [H | [H | []]].
    + apply (Hd k); [now right | exact H].
    + subst. tauto.
Qed.


End CounterFacts.

(** ** [value_counts] *)

Module PandasFacts.
Import Counter Spec Pandas CounterFacts.

Lemma occurrences_cons (x : scalar) (cells : list scalar) (k : scalar) :
  occurrences (x :: cells) k =
  (if scalar_eqb x k then 1 else 0) + occurrences cells k.
Proof.
  unfold occurrences, scalar_eqb. simpl.
  destruct (scalar_eq_dec x k); lia.
Qed.

Lemma occurrences_app (a b : list scalar) (k : scalar) :
  occurrences (a ++ b) k = occurrences a k + occurrences b k.
Proof. unfold occurrences. rewrite count_occ_app. lia. Qed.

Lemma occurrences_pos (cells : list scalar) (k : scalar) :
  0 < occurrences cells k <-> In k cells.
Proof.
  unfold occurrences. rewrite (count_occ_In scalar_eq_dec). lia.
Qed.

Lemma occurrences_notna (cells : list scalar) (k : scalar) :
  k <> NaN -> occurrences (filter notna cells) k = occurrences cells k.
Proof.
  intros Hk. induction cells as [| x cells IH]; [reflexivity |].
  simpl filter. destruct x; simpl notna; cbv iota;
    rewrite ?occurrences_cons, IH; try reflexivity.
  now rewrite (scalar_eqb_neq NaN k) by congruence.
Qed.

Lemma fold_count_get (cells : list scalar) (acc : t) (k : scalar) :
  get (fold_left count_item cells acc) k 0 = get acc k 0 + occurrences cells k.
Proof.
  revert acc. induction cells as [| x cells IH]; intros acc.
  - unfold occurrences. simpl. lia.
  - simpl fold_left. rewrite IH, occurrences_cons. unfold count_item.
    case_key x k.
    + rewrite get_setitem_same. lia.
    + rewrite get_setitem_other by congruence. lia.
Qed.

Lemma count_values_get (cells : list scalar) (k : scalar) :
  get (count_values cells) k 0 = occurrences cells k.
Proof. unfold count_values. apply (fold_count_get cells []). Qed.

Lemma fold_count_keys (cells : list scalar) (acc : t) (k : scalar) :
  In k (keys (fold_left count_item cells acc)) <->
  In k (keys acc) \/ In k cells.
Proof.
  revert acc. induction cells as [| x cells IH]; intros acc; simpl;
    [tauto |].
  rewrite IH. unfold count_item. rewrite in_keys_setitem.
  intuition congruence.
Qed.

Lemma fold_count_NoDup (cells : list scalar) (acc : t) :
  NoDup (keys acc) -> NoDup (keys (fold_left count_item cells acc)).
Proof.
  revert acc. induction cells as [| x cells IH]; intros acc Hnd; simpl;
    [assumption |].
  apply IH. now apply NoDup_keys_setitem.
Qed.

Lemma fold_count_total (cells : list scalar) (acc : t) :
  NoDup (keys acc) ->
  total (fold_left count_item cells acc) =
  total acc + Z.of_nat (List.length cells).
Proof.
  revert acc. induction cells as [| x cells IH]; intros acc Hnd.
  - simpl. lia.
  - simpl fold_left. rewrite IH by now apply NoDup_keys_setitem.
    unfold count_item. rewrite total_setitem by assumption.
    simpl List.length. lia.
Qed.

Lemma value_counts_perm (cells : list scalar) :
  Permutation (value_counts cells) (count_values (filter notna cells)).
Proof. apply sort_desc_perm. Qed.

Lemma value_counts_NoDup (cells : list scalar) :
  NoDup (keys (value_counts cells)).
Proof.
  eapply Permutation_NoDup.
  - apply Permutation_map. symmetry. apply value_counts_perm.
  - apply (fold_count_NoDup _ []). constructor.
Qed.

Lemma value_counts_get (cells : list scalar) (k : scalar) :
  get (value_counts cells) k 0 = occurrences (filter notna cells) k.
Proof.
  rewrite (get_Permutation _ (count_values (filter notna cells))).
  - apply count_values_get.
  - apply value_counts_NoDup.
  - apply value_counts_perm.
Qed.

Lemma value_counts_keys (cells : list scalar) (k : scalar) :
  In k (keys (value_counts cells)) <-> In k cells /\ k <> NaN.
Proof.
  assert (P : Permutation (keys (value_counts cells))
                (keys (count_values (filter notna cells))))
    by (apply Permutation_map, value_counts_perm).
  split.
  - intros H. apply (Permutation_in _ P) in H.
    apply (fold_count_keys _ []) in H. destruct H as [[] | H].
    apply filter_In in H. destruct H as [H Hn].
    split; [assumption | intros ->; discriminate].
  - intros [H Hn]. apply (Permutation_in _ (Permutation_sym P)).
    apply (fold_count_keys _ []). right. apply filter_In.
    split; [assumption | destruct k; simpl; congruence].
Qed.

Lemma value_counts_total (cells : list scalar) :
  total (value_counts cells) = Z.of_nat (List.length (filter notna cells)).
Proof.
  rewrite (total_Permutation _ _ (value_counts_perm cells)).
  unfold count_values. rewrite fold_count_total by constructor.
  reflexivity.
Qed.

Lemma to_dict_value_counts (cells : list scalar) :
  to_dict (value_counts cells) = value_counts cells.
Proof.
  unfold to_dict. rewrite dict_update_fresh.
  - reflexivity.
  - apply value_counts_NoDup.
  - intros k _ [].
Qed.

End PandasFacts.

(** ** The dict of counters *)

Module DictFacts.
Import Engine.

Lemma lookup_set_same (d : counters) (k : string) (c : Counter.t) :
  dict_lookup (dict_set d k c) k = Some c.
Proof.
  induction d as [| [k1 c1] d IH]; simpl.
  - now rewrite String.eqb_refl.
  - destruct (String.eqb k k1) eqn:E; simpl; rewrite E; auto.
Qed.

Lemma lookup_set_other (d : counters) (k k' : string) (c : Counter.t) :
  k' <> k -> dict_lookup (dict_set d k c) k' = dict_lookup d k'.
Proof.
  intros Hne. apply String.eqb_neq in Hne.
  induction d as [| [k1 c1] d IH]; simpl.
  - now rewrite Hne.
  - destruct (String.eqb k k1) eqn:E; simpl.
    + apply String.eqb_eq in E. subst k1. now rewrite Hne.
    + now rewrite IH.
Qed.

Lemma lookup_in (d : counters) (k : string) :
  In k (map fst d) <-> exists c, dict_lookup d k = Some c.
Proof.
  induction d as [| [k1 c1] d IH]; simpl.
  - split; [tauto | intros [c H]; discriminate].
  - destruct (String.eqb k k1) eqn:E.
    + apply String.eqb_eq in E. subst. split; eauto.
    + apply String.eqb_neq in E. rewrite <- IH.
      split; [intros [H | H]; congruence | auto].
Qed.

Lemma keys_set_in (d : counters) (k : string) (c : Counter.t) :
  In k (map fst d) -> map fst (dict_set d k c) = map fst d.
Proof.
  induction d as [| [k1 c1] d IH]; simpl; intros H; [tauto |].
  destruct (String.eqb k k1) eqn:E; simpl; [reflexivity |].
  apply String.eqb_neq in E. f_equal. apply IH.
  destruct H; congruence.
Qed.

Lemma set_notin (d : counters) (k : string) (c : Counter.t) :
  ~ In k (map fst d) -> dict_set d k c = d ++ [(k, c)].
Proof.
  induction d as [| [k1 c1] d IH]; simpl; intros H; [reflexivity |].
  destruct (String.eqb k k1) eqn:E.
  - apply String.eqb_eq in E. subst. tauto.
  - f_equal. apply IH. tauto.
Qed.

Lemma fold_fresh (cols : list string) (d : counters) :
  NoDup cols ->
  (forall col, In col cols -> ~ In col (map fst d)) ->
  fold_left (fun d col => dict_set d col []) cols d =
  d ++ map (fun col => (col, [])) cols.
Proof.
  revert d. induction cols as [| col cols IH]; simpl; intros d Hnd Hd.
  - now rewrite app_nil_r.
  - inversion Hnd as [| ? ? Hni Hnd']; subst.
    rewrite set_notin by (apply Hd; now left).
    rewrite IH; [now rewrite <- app_assoc | assumption |].
    intros k Hk. rewrite map_app, in_app_iff. simpl.
    intros [H | [H | []]].
    + apply (Hd k); [now right | exact H].
    + subst. tauto.
Qed.

Lemma fresh_counters_eq (cols : list string) :
  NoDup cols -> fresh_counters cols = map (fun col => (col, [])) cols.
Proof.
  intros Hnd. unfold fresh_counters. now rewrite fold_fresh by auto.
Qed.

Lemma fresh_counters_keys (cols : list string) :
  NoDup cols -> map fst (fresh_counters cols) = cols.
Proof.
  intros Hnd. rewrite fresh_counters_eq by assumption.
  rewrite map_map. simpl. apply map_id.
Qed.

Lemma fresh_counters_lookup (cols : list string) (col : string) :
  NoDup cols -> In col cols ->
  dict_lookup (fresh_counters cols) col = Some [].
Proof.
  intros Hnd Hin. rewrite fresh_counters_eq by assumption. clear Hnd.
  induction cols as [| c cols IH]; simpl in *; [tauto |].
  destruct (String.eqb col c) eqn:E; [reflexivity |].
  apply String.eqb_neq in E. apply IH. destruct Hin; congruence.
Qed.

End DictFacts.

(** ** The loop body and the loop *)

Module EngineFacts.
Import Pandas Engine Trace DictFacts CounterFacts PandasFacts.

Lemma contains_iff (chunk : DataFrame) (col : string) :
  contains chunk col = true <-> In col (columns chunk).
Proof.
  unfold contains. rewrite existsb_exists. split.
  - intros [x [Hin E]]. apply String.eqb_eq in E. now subst.
  - intros H. exists col. split; [assumption | apply String.eqb_refl].
Qed.

Lemma col_index_None (col : string) (cols : list string) :
  ~ In col cols -> col_index col cols = None.
Proof.
  induction cols as [| c cols IH]; simpl; intros H; [reflexivity |].
  destruct (String.eqb col c) eqn:E.
  - apply String.eqb_eq in E. subst. tauto.
  - rewrite IH by tauto. reflexivity.
Qed.

(** A column the chunk does not have contributes nothing, with or
    without the test of line 272. *)
Lemma step_counter_absent (chunk : DataFrame) (col : string) (c : Counter.t) :
  contains chunk col = false -> step_counter col c chunk = c.
Proof.
  intros H. unfold step_counter, getcol.
  rewrite col_index_None.
  - destruct c; reflexivity.
  - intros Hin. apply contains_iff in Hin. congruence.
Qed.

Lemma update_columns_ok (chunk : DataFrame) (cols : list string) :
  forall d : counters,
  NoDup cols ->
  (forall col, In col cols -> In col (map fst d)) ->
  exists d',
    update_columns d chunk cols = Ok d' /\
    map fst d' = map fst d /\
    (forall k, In k cols ->
       dict_lookup d' k =
       option_map (fun c => step_counter k c chunk) (dict_lookup d k)) /\
    (forall k, ~ In k cols -> dict_lookup d' k = dict_lookup d k).
Proof.
  induction cols as [| col cols IH]; intros d Hnd Hkeys.
  - exists d. simpl. repeat split; auto. intros k [].
  - inversion Hnd as [| ? ? Hni Hnd']; subst.
    assert (Hin : In col (map fst d)) by (apply Hkeys; now left).
    destruct (proj1 (lookup_in d col) Hin) as [c Hc].
    simpl update_columns. destruct (contains chunk col) eqn:Hct.
    + unfold update_counter. rewrite Hc. simpl bind.
      set (d1 := dict_set d col _).
      assert (K1 : map fst d1 = map fst d) by (now apply keys_set_in).
      destruct (IH d1 Hnd') as [d' [Hrun [Hk [Hl Ho]]]].
      { intros x Hx. rewrite K1. apply Hkeys. now right. }
      exists d'. split; [exact Hrun |]. split; [congruence |]. split.
      * intros k [-> | Hk']. 
        -- rewrite Ho by assumption. unfold d1.
           rewrite lookup_set_same, Hc. reflexivity.
        -- rewrite Hl by assumption. unfold d1.
           rewrite lookup_set_other by (intros ->; tauto). reflexivity.
      * intros k Hk'. simpl in Hk'.
        rewrite Ho by tauto. unfold d1.
        apply lookup_set_other. intros ->. tauto.
    + destruct (IH d Hnd') as [d' [Hrun [Hk [Hl Ho]]]].
      { intros x Hx. apply Hkeys. now right. }
      exists d'. split; [exact Hrun |]. split; [exact Hk |]. split.
      * intros k [-> | Hk'].
        -- rewrite Ho by assumption. rewrite Hc. simpl.
           now rewrite step_counter_absent.
        -- now apply Hl.
      * intros k Hk'. simpl in Hk'. apply Ho. tauto.
Qed.

Lemma column_counter_snoc (acc : Counter.t) (seen : list DataFrame)
    (chunk : DataFrame) (col : string) :
  column_counter acc (seen ++ [chunk]) col =
  step_counter col (column_counter acc seen col) chunk.
Proof. unfold column_counter. now rewrite fold_left_app. Qed.

(** The first chunk fixes the header and fills fresh counters. *)
Lemma process_first (st : loop_state) (chunk : DataFrame) :
  header st = [] -> NoDup (columns chunk) ->
  exists st',
    process_chunk st chunk = Ok st' /\
    header st' = columns chunk /\
    map fst (value_counters st') = columns chunk /\
    chunk_num st' = S (chunk_num st) /\
    forall col, In col (columns chunk) ->
      dict_lookup (value_counters st') col =
      Some (column_counter [] [chunk] col).
Proof.
  intros Hh Hnd. unfold process_chunk. rewrite Hh. simpl.
  destruct (update_columns_ok chunk (columns chunk)
              (fresh_counters (columns chunk)) Hnd)
    as [d' [Hrun [Hk [Hl _]]]].
  { intros col Hin. now rewrite fresh_counters_keys. }
  rewrite Hrun. simpl. eexists. split; [reflexivity |]. simpl.
  rewrite fresh_counters_keys in Hk by assumption.
  repeat split; auto.
  intros col Hin. rewrite Hl by assumption.
  now rewrite fresh_counters_lookup.
Qed.

Lemma process_next (cols : list string) (seen : list DataFrame)
    (st : loop_state) (chunk : DataFrame) :
  cols <> [] -> NoDup cols -> aggregated cols seen st ->
  exists st',
    process_chunk st chunk = Ok st' /\
    aggregated cols (seen ++ [chunk]) st'.
Proof.
  intros Hne Hnd [Hh [Hk [Hn Hl]]]. unfold process_chunk.
  destruct (header st) as [| h0 hs] eqn:Eh; [congruence |].
  cbn [value_counters header chunk_num]. rewrite Hh.
  destruct (update_columns_ok chunk cols (value_counters st) Hnd)
    as [d' [Hrun [Hk' [Hl' _]]]].
  { intros col Hin. now rewrite Hk. }
  rewrite Hrun. simpl. eexists. split; [reflexivity |].
  unfold aggregated. simpl. repeat split.
  - congruence.
  - rewrite length_app. simpl. lia.
  - intros col Hin. rewrite Hl', Hl by assumption. simpl.
    now rewrite column_counter_snoc.
Qed.

Lemma merge_chunks_next (cols : list string) (chunks seen : list DataFrame)
    (st : loop_state) :
  cols <> [] -> NoDup cols -> aggregated cols seen st ->
  exists st',
    merge_chunks st chunks = Ok st' /\
    aggregated cols (seen ++ chunks) st'.
Proof.
  intros Hne Hnd. revert seen st.
  induction chunks as [| chunk chunks IH]; intros seen st Hagg.
  - exists st. rewrite app_nil_r. auto.
  - destruct (process_next cols seen st chunk Hne Hnd Hagg)
      as [st1 [H1 A1]].
    destruct (IH _ _ A1) as [st' [H2 A2]].
    exists st'. simpl. rewrite H1. simpl.
    rewrite <- app_assoc in A2. auto.
Qed.

(** Merging a non-empty list of chunks from the initial state succeeds,
    and the state aggregates them under the first chunk's columns. *)
Lemma merge_chunks_initial (chunk : DataFrame) (chunks : list DataFrame) :
  columns chunk <> [] -> NoDup (columns chunk) ->
  exists st,
    merge_chunks initial_state (chunk :: chunks) = Ok st /\
    aggregated (columns chunk) (chunk :: chunks) st.
Proof.
  intros Hne Hnd.
  destruct (process_first initial_state chunk eq_refl Hnd)
    as [st1 [H1 [Hh [Hk [Hn Hl]]]]].
  assert (A1 : aggregated (columns chunk) [chunk] st1)
    by (repeat split; auto).
  destruct (merge_chunks_next _ chunks _ _ Hne Hnd A1) as [st [H2 A2]].
  exists st. simpl merge_chunks. rewrite H1. simpl. auto.
Qed.


(** *** What a column's Counter holds *)

Lemma fold_add_total (m c : Counter.t) :
  NoDup (Counter.keys c) ->
  Counter.total (fold_left Counter.add_item m c) =
  Counter.total c + Counter.total m.
Proof.
  revert c. induction m as [| [k v] m IH]; intros c Hnd; simpl; [lia |].
  rewrite IH by (now apply NoDup_keys_setitem).
  unfold Counter.add_item. rewrite total_setitem by assumption.
  simpl. lia.
Qed.

Lemma update_total (c m : Counter.t) :
  NoDup (Counter.keys c) -> NoDup (Counter.keys m) ->
  Counter.total (Counter.update c m) = Counter.total c + Counter.total m.
Proof.
  intros Nc Nm. destruct c as [| e c].
  - simpl Counter.update. rewrite dict_update_fresh; auto.
  - now apply fold_add_total.
Qed.

Lemma step_counter_eq (col : string) (c : Counter.t) (chunk : DataFrame) :
  step_counter col c chunk =
  Counter.update c (value_counts (getcol chunk col)).
Proof. unfold step_counter. now rewrite to_dict_value_counts. Qed.

Lemma column_counter_NoDup (chunks : list DataFrame) (col : string) :
  forall acc, NoDup (Counter.keys acc) ->
  NoDup (Counter.keys (column_counter acc chunks col)).
Proof.
  induction chunks as [| chunk chunks IH]; intros acc Hnd; [assumption |].
  apply IH. rewrite step_counter_eq. now apply update_NoDup.
Qed.

Lemma column_counter_get (chunks : list DataFrame) (col : string)
    (k : scalar) :
  forall acc,
  Counter.get (column_counter acc chunks col) k 0 =
  Counter.get acc k 0
  + Spec.occurrences (filter notna (column_cells chunks col)) k.
Proof.
  induction chunks as [| chunk chunks IH]; intros acc.
  - unfold Spec.occurrences. simpl. lia.
  - simpl column_counter. rewrite IH, step_counter_eq.
    rewrite update_get by apply value_counts_NoDup.
    rewrite value_counts_get. unfold column_cells. simpl flat_map.
    rewrite filter_app, occurrences_app. lia.
Qed.

Lemma column_counter_keys (chunks : list DataFrame) (col : string)
    (k : scalar) :
  forall acc,
  In k (Counter.keys (column_counter acc chunks col)) <->
  In k (Counter.keys acc) \/ (In k (column_cells chunks col) /\ k <> NaN).
Proof.
  induction chunks as [| chunk chunks IH]; intros acc.
  - simpl. tauto.
  - simpl column_counter. rewrite IH, step_counter_eq, update_keys.
    rewrite value_counts_keys. unfold column_cells. simpl flat_map.
    rewrite in_app_iff. tauto.
Qed.

Lemma column_counter_total (chunks : list DataFrame) (col : string) :
  forall acc, NoDup (Counter.keys acc) ->
  Counter.total (column_counter acc chunks col) =
  Counter.total acc + present (column_cells chunks col).
Proof.
  induction chunks as [| chunk chunks IH]; intros acc Hnd.
  - unfold present. simpl. lia.
  - simpl column_counter. rewrite IH, step_counter_eq.
    + rewrite update_total by (auto using value_counts_NoDup).
      rewrite value_counts_total. unfold present, column_cells.
      simpl flat_map. rewrite filter_app, length_app. lia.
    + rewrite step_counter_eq. now apply update_NoDup.
Qed.

(** Every entry of a column's Counter is a value of the column that is
    not missing, with its number of occurrences. *)
Lemma column_counter_entry (chunks : list DataFrame) (col : string)
    (v : scalar) (n : Z) :
  In (v, n) (column_counter [] chunks col) <->
  v <> NaN /\ 0 < n /\ n = Spec.occurrences (column_cells chunks col) v.
Proof.
  pose proof (column_counter_NoDup chunks col [] (NoDup_nil _)) as Hnd.
  pose proof (column_counter_get chunks col v []) as Hg.
  pose proof (column_counter_keys chunks col v []) as Hk.
  simpl in Hg, Hk. split.
  - intros Hin.
    assert (Hv : In v (Counter.keys (column_counter [] chunks col))).
    { change v with (fst (v, n)). now apply in_map. }
    apply Hk in Hv. destruct Hv as [[] | [Hc Hv]].
    rewrite (In_get _ _ _ 0 Hnd Hin) in Hg.
    rewrite occurrences_notna in Hg by assumption.
    split; [assumption |]. split; [| assumption].
    rewrite Hg. now apply occurrences_pos.
  - intros [Hv [Hpos Hn]].
    assert (Hc : In v (column_cells chunks col)).
    { apply occurrences_pos. now rewrite <- Hn. }
    rewrite occurrences_notna in Hg by assumption.
    rewrite Hn, <- Hg. apply get_In. apply Hk. right. auto.
Qed.

(** *** Reading the file in chunks *)

Lemma split_rows_concat (n : nat) :
  (1 <= n)%nat ->
  forall fuel rs, (List.length rs <= fuel)%nat ->
  List.concat (split_rows fuel n rs) = rs.
Proof.
  intros Hn. induction fuel as [| fuel IH]; intros rs Hlen.
  - destruct rs; [reflexivity | simpl in Hlen; lia].
  - destruct rs as [| r rs]; [reflexivity |].
    cbn [split_rows List.concat]. rewrite IH.
    + apply firstn_skipn.
    + rewrite length_skipn.
      change (List.length (r :: rs)) with (S (List.length rs)) in *. lia.
Qed.

Lemma read_csv_ok (file : DataFrame) (chunk_size : Z) :
  1 <= chunk_size ->
  exists chunk chunks,
    read_csv file chunk_size = Some (chunk :: chunks) /\
    Forall (fun ch => columns ch = columns file) (chunk :: chunks) /\
    List.concat (map rows (chunk :: chunks)) = rows file.
Proof.
  intros Hn. unfold read_csv.
  destruct (chunk_size <? 1) eqn:E; [apply Z.ltb_lt in E; lia |].
  destruct (rows file) as [| r rs] eqn:Er.
  - do 2 eexists. split; [reflexivity |]. split; [repeat constructor |].
    reflexivity.
  - assert (Hc : List.concat (split_rows (List.length (r :: rs))
                           (Z.to_nat chunk_size) (r :: rs)) = r :: rs)
      by (apply split_rows_concat; lia).
    remember (split_rows _ _ _) as parts eqn:Ep.
    destruct parts as [| p parts].
    + simpl in Hc. discriminate.
    + do 2 eexists. split; [reflexivity |]. split.
      * change (Forall (fun ch => columns ch = columns file)
                  (map (mkDataFrame (columns file)) (p :: parts))).
        apply Forall_forall. intros ch Hin. apply in_map_iff in Hin.
        destruct Hin as [x [<- _]]. reflexivity.
      * change (List.concat (map rows (map (mkDataFrame (columns file))
                                    (p :: parts))) = r :: rs).
        rewrite map_map. simpl rows. now rewrite map_id.
Qed.

Lemma column_cells_uniform (cols : list string) (col : string)
    (chunks : list DataFrame) :
  Forall (fun ch => columns ch = cols) chunks ->
  column_cells chunks col =
  getcol (mkDataFrame cols (List.concat (map rows chunks))) col.
Proof.
  unfold column_cells, getcol. cbn [columns rows].
  induction 1 as [| ch chunks Hc Hall IH]; simpl.
  - destruct (col_index col cols); reflexivity.
  - rewrite IH, Hc. destruct (col_index col cols); [| reflexivity].
    now rewrite map_app.
Qed.

Lemma getcol_eta (file : DataFrame) (col : string) :
  getcol (mkDataFrame (columns file) (rows file)) col = getcol file col.
Proof. reflexivity. Qed.

(** *** The loop against the cancellation flag *)

Lemma chunk_loop_never (reader : list DataFrame) :
  forall poll st,
  chunk_loop None poll st reader =
  (st' <- merge_chunks st reader ;;
   Ok (st', (poll + List.length reader)%nat, [])).
Proof.
  induction reader as [| chunk reader IH]; intros poll st; simpl.
  - now rewrite Nat.add_0_r.
  - destruct (process_chunk st chunk) as [st1 | msg]; simpl; [| reflexivity].
    rewrite IH. now rewrite Nat.add_succ_r.
Qed.

(** The flag goes up before the check made for chunk number [k]
    (counted from 0): the first [k] chunks are merged, that chunk is
    dropped, the rest is never read. *)
Lemma chunk_loop_stop (reader : list DataFrame) :
  forall poll st k,
  (k < List.length reader)%nat ->
  chunk_loop (Some (poll + k)%nat) poll st reader =
  (st' <- merge_chunks st (firstn k reader) ;;
   Ok (st', S (poll + k), skipn (S k) reader)).
Proof.
  induction reader as [| chunk reader IH]; intros poll st k Hk;
    [simpl in Hk; lia |].
  cbn [chunk_loop is_set]. destruct k as [| k].
  - rewrite Nat.add_0_r, Nat.leb_refl. reflexivity.
  - replace (poll + S k <=? poll)%nat with false
      by (symmetry; apply Nat.leb_gt; lia).
    cbn [firstn merge_chunks skipn].
    destruct (process_chunk st chunk) as [st1 | msg]; simpl; [| reflexivity].
    replace (poll + S k)%nat with (S poll + k)%nat by lia.
    apply IH. simpl in Hk. lia.
Qed.

(** The flag goes up only after the last check of the loop. *)
Lemma chunk_loop_late (reader : list DataFrame) :
  forall poll st t,
  (poll + List.length reader <= t)%nat ->
  chunk_loop (Some t) poll st reader =
  (st' <- merge_chunks st reader ;;
   Ok (st', (poll + List.length reader)%nat, [])).
Proof.
  induction reader as [| chunk reader IH]; intros poll st t Ht; simpl.
  - now rewrite Nat.add_0_r.
  - simpl in Ht.
    replace (t <=? poll)%nat with false by (symmetry; apply Nat.leb_gt; lia).
    destruct (process_chunk st chunk) as [st1 | msg]; simpl; [| reflexivity].
    rewrite IH by lia. now rewrite Nat.add_succ_r.
Qed.

End EngineFacts.

(** ** The report *)

Module ReportFacts.
Import Engine Layout Spec CounterFacts.

Lemma append_assoc (a b c : string) : (a +++ b) +++ c = a +++ (b +++ c).
Proof. induction a as [| x a IH]; simpl; [reflexivity | now rewrite IH]. Qed.

Lemma append_nil_r (a : string) : a +++ EmptyString = a.
Proof. induction a as [| x a IH]; simpl; [reflexivity | now rewrite IH]. Qed.

Lemma write_values_lines (pairs : list (scalar * Z)) :
  forall report, write_values report pairs = report +++ value_lines pairs.
Proof.
  induction pairs as [| [v n] pairs IH]; intros report; simpl.
  - now rewrite append_nil_r.
  - rewrite IH. unfold write, value_line. simpl fst. simpl snd.
    now rewrite append_assoc.
Qed.

Lemma write_columns_sections (d : counters) (top_n : Z) :
  forall report i,
  write_columns report i d top_n = report +++ sections i d top_n.
Proof.
  induction d as [| [col c] d IH]; intros report i.
  - simpl. now rewrite append_nil_r.
  - cbn [write_columns sections]. unfold section.
    destruct c as [| e c].
    + rewrite IH. unfold write, title. now rewrite !append_assoc.
    + rewrite IH, write_values_lines. unfold write, title.
      now rewrite !append_assoc.
Qed.

(** The report is the header block followed by the column sections. *)
Lemma generate_report_layout (basename now : string) (d : counters)
    (top_n : Z) :
  generate_report basename now d top_n =
  header_block basename now top_n +++ sections 0 d top_n.
Proof.
  unfold generate_report. rewrite write_columns_sections.
  f_equal. unfold write, header_block. simpl append at 1.
  now rewrite !append_assoc.
Qed.

Lemma sort_desc_ranked (c : Counter.t) : ranked c (Counter.sort_desc c).
Proof.
  split; [apply sort_desc_perm |].
  split; [apply sort_desc_sorted | intros n; apply sort_desc_stable].
Qed.

End ReportFacts.

(** ** The estimator *)

Module EstimatorFacts.
Import Engine Estimator.

Lemma bind_is_Ok {A B : Type} (r : result A) (k : A -> result B) (b : B) :
  bind r k = Ok b -> exists a, r = Ok a /\ k a = Ok b.
Proof. destruct r as [a | m]; simpl; [eauto | discriminate]. Qed.

Lemma bind_is_Raise {A B : Type} (r : result A) (k : A -> result B)
    (msg : string) :
  bind r k = Raise msg ->
  r = Raise msg \/ exists a, r = Ok a /\ k a = Raise msg.
Proof. destruct r as [a | m]; simpl; [eauto | intros [= ->]; auto]. Qed.

Lemma count_newlines_bounds (raw_data : list Byte.byte) :
  0 <= count_newlines raw_data <= Z.of_nat (List.length raw_data).
Proof.
  unfold count_newlines.
  pose proof (filter_length_le (Byte.eqb Byte.x0a) raw_data).
  lia.
Qed.

(** *** Signs *)

(** Rounding keeps the sign it is given. *)
Lemma round_has_sign (s : bool) (m e : Z) (l : SpecFloat.location) :
  has_sign s (SpecFloat.binary_round_aux 53 1024 s m e l).
Proof.
  unfold SpecFloat.binary_round_aux.
  destruct (SpecFloat.shr_fexp 53 1024 m e l) as [mrs' e'].
  destruct (SpecFloat.shr_fexp 53 1024
              (SpecFloat.round_nearest_even (SpecFloat.shr_m mrs')
                 (SpecFloat.loc_of_shr_record mrs')) e' SpecFloat.loc_Exact)
    as [mrs'' e''].
  destruct (SpecFloat.shr_m mrs'') as [| p | p]; [reflexivity | | exact I].
  destruct (e'' <=? 1024 - 53); reflexivity.
Qed.

Lemma normalize_has_sign (z : Z) :
  has_sign (z <? 0) (SpecFloat.binary_normalize 53 1024 z 0 false).
Proof.
  destruct z as [| p | p]; [reflexivity | |];
    unfold SpecFloat.binary_normalize, SpecFloat.binary_round;
    destruct (SpecFloat.shl_align _ _ _) as [mz ez]; apply round_has_sign.
Qed.

Lemma float_of_int_Ok (z : Z) (f : binary64) :
  float_of_int z = Ok f ->
  has_sign (z <? 0) f /\ forall s, f <> SpecFloat.S754_infinity s.
Proof.
  unfold float_of_int. pose proof (normalize_has_sign z) as H.
  destruct (SpecFloat.binary_normalize 53 1024 z 0 false) as [s | s | | s m e];
    intros E; try discriminate; injection E as <-;
    (split; [exact H | discriminate]).
Qed.

Lemma float_of_int_Raise (z : Z) (msg : string) :
  float_of_int z = Raise msg -> msg = "int too large to convert to float".
Proof.
  unfold float_of_int.
  destruct (SpecFloat.binary_normalize 53 1024 z 0 false);
    intros E; try discriminate; now injection E as <-.
Qed.

Lemma div_has_sign (s : bool) (ma mb : positive) :
  has_sign s
    (SpecFloat.SFdiv 53 1024 (SpecFloat.S754_finite s ma 0)
       (SpecFloat.S754_finite false mb 0)).
Proof.
  unfold SpecFloat.SFdiv.
  destruct (SpecFloat.SFdiv_core_binary 53 1024 (Zpos ma) 0 (Zpos mb) 0)
    as [[mz ez] lz].
  rewrite xorb_false_r. apply round_has_sign.
Qed.

Lemma int_true_div_Ok (a b : Z) (q : binary64) :
  int_true_div a b = Ok q ->
  has_sign (xorb (a <? 0) (b <? 0)) q /\
  forall s, q <> SpecFloat.S754_infinity s.
Proof.
  unfold int_true_div.
  destruct b as [| mb | mb]; [discriminate | |];
    (destruct a as [| ma | ma];
     [ intros [= <-]; split; [reflexivity | discriminate] | | ]);
    match goal with
    | |- context [SpecFloat.SFdiv 53 1024 (SpecFloat.S754_finite ?s ?x 0) ?y] =>
        pose proof (div_has_sign s x mb) as H;
        destruct (SpecFloat.SFdiv 53 1024 (SpecFloat.S754_finite s x 0) y)
    end;
    intros E; try discriminate; injection E as <-;
    (split; [exact H | discriminate]).
Qed.

Lemma int_true_div_Raise (a b : Z) (msg : string) :
  b <> 0 -> int_true_div a b = Raise msg ->
  msg = "integer division result too large for a float".
Proof.
  intros Hb. unfold int_true_div.
  destruct b as [| mb | mb]; [congruence | |];
    (destruct a as [| ma | ma]; [discriminate | |]);
    match goal with
    | |- context [SpecFloat.SFdiv 53 1024 ?x ?y] =>
        destruct (SpecFloat.SFdiv 53 1024 x y)
    end;
    intros E; try discriminate; now injection E as <-.
Qed.

Lemma ceil_Raise (f : binary64) (msg : string) :
  ceil f = Raise msg ->
  msg = "cannot convert float infinity to integer" \/
  msg = "cannot convert float NaN to integer".
Proof.
  destruct f; simpl; intros E; try discriminate; injection E as <-; auto.
Qed.

Lemma mul_has_sign (sx sy : bool) (x y : binary64) :
  has_sign sx x -> has_sign sy y ->
  has_sign (xorb sx sy) (SpecFloat.SFmul 53 1024 x y).
Proof.
  unfold SpecFloat.SFmul.
  destruct x as [s1 | s1 | | s1 m1 e1], y as [s2 | s2 | | s2 m2 e2];
    cbn [has_sign]; intros H1 H2; subst;
    first [exact I | reflexivity | apply round_has_sign].
Qed.

(** A product that is negative, a zero or not-a-number is not above 0. *)
Lemma negative_not_positive (f : binary64) :
  has_sign true f -> is_positive (PyFloat f) = false.
Proof.
  destruct f as [s | s | | s m e]; cbn [has_sign]; intros H; subst; reflexivity.
Qed.

Lemma zero_mul_not_positive (s : bool) (q : binary64) :
  is_positive (PyFloat (SpecFloat.SFmul 53 1024 (SpecFloat.S754_zero s) q)) = false.
Proof. destruct q; reflexivity. Qed.

(** With a chunk size that is not positive, the product of line 253 is
    not above 0. *)
Lemma product_not_positive (chunk_size : Z) (avg : number) (est : number) :
  chunk_size <= 0 ->
  match avg with
  | PyInt z => 0 < z
  | PyFloat q => has_sign false q
  end ->
  int_mul chunk_size avg = Ok est -> is_positive est = false.
Proof.
  intros Hc Havg. destruct avg as [z | q]; simpl.
  - intros [= <-]. simpl. apply Z.ltb_ge. nia.
  - destruct (float_of_int chunk_size) as [fn | m] eqn:Ef; simpl;
      [| discriminate].
    intros [= <-].
    destruct (float_of_int_Ok _ _ Ef) as [Hfn _].
    destruct (Z.eq_dec chunk_size 0) as [-> | Hne].
    + vm_compute in Ef. injection Ef as <-.
      apply zero_mul_not_positive.
    + replace (chunk_size <? 0) with true in Hfn
        by (symmetry; apply Z.ltb_lt; lia).
      apply negative_not_positive.
      change true with (xorb true false). now apply mul_has_sign.
Qed.

(** *** The estimate, step by step *)

(** The three steps of lines 252-254. *)
Lemma estimate_steps (file_bytes : list Byte.byte) (total_size chunk_size : Z) :
  let raw_data := firstn FILE_SAMPLE_SIZE file_bytes in
  let lines := count_newlines raw_data in
  estimate_chunks file_bytes total_size chunk_size =
  (avg <- (if 0 <? lines
           then q <- int_true_div (Z.of_nat (List.length raw_data)) lines ;;
                Ok (PyFloat q)
           else Ok (PyInt 150)) ;;
   est <- int_mul chunk_size avg ;;
   n <- (if is_positive est
         then q <- int_div total_size est ;; ceil q
         else Ok 1) ;;
   Ok (mkEstimate avg n)).
Proof. reflexivity. Qed.

Lemma estimate_Ok (file_bytes : list Byte.byte) (total_size chunk_size : Z)
    (e : estimate) :
  let raw_data := firstn FILE_SAMPLE_SIZE file_bytes in
  let lines := count_newlines raw_data in
  estimate_chunks file_bytes total_size chunk_size = Ok e ->
  (0 < lines ->
   exists q,
     int_true_div (Z.of_nat (List.length raw_data)) lines = Ok q /\
     avg_row_size e = PyFloat q) /\
  (lines = 0 -> avg_row_size e = PyInt 150) /\
  exists est,
    int_mul chunk_size (avg_row_size e) = Ok est /\
    (is_positive est = true ->
     exists q, int_div total_size est = Ok q /\ ceil q = Ok (total_chunks e)) /\
    (is_positive est = false -> total_chunks e = 1).
Proof.
  intros raw_data lines. rewrite estimate_steps. fold raw_data. fold lines.
  intros H.
  apply bind_is_Ok in H. destruct H as [avg [Havg H]].
  apply bind_is_Ok in H. destruct H as [est [Hest H]].
  apply bind_is_Ok in H. destruct H as [n [Hn H]].
  injection H as <-. cbn [avg_row_size total_chunks].
  split; [| split].
  - intros Hl. apply Z.ltb_lt in Hl. rewrite Hl in Havg.
    apply bind_is_Ok in Havg. destruct Havg as [q [Hq Havg]].
    injection Havg as <-. eauto.
  - intros Hl. rewrite Hl in Havg. simpl in Havg. now injection Havg as <-.
  - exists est. split; [exact Hest |]. split; intros Hp; rewrite Hp in Hn.
    + apply bind_is_Ok in Hn. exact Hn.
    + now injection Hn as <-.
Qed.

Lemma int_mul_Raise (n : Z) (x : number) (msg : string) :
  int_mul n x = Raise msg -> msg = "int too large to convert to float".
Proof.
  destruct x as [z | f]; simpl; [discriminate |].
  intros H. apply bind_is_Raise in H.
  destruct H as [H | [fn [_ H]]]; [| discriminate].
  now apply float_of_int_Raise in H.
Qed.

Lemma int_div_Raise (n : Z) (x : number) (msg : string) :
  is_positive x = true -> int_div n x = Raise msg -> In msg raised.
Proof.
  intros Hp. destruct x as [z | f]; simpl.
  - intros H. simpl in Hp. apply Z.ltb_lt in Hp.
    apply int_true_div_Raise in H; [| lia]. subst. right. now left.
  - intros H. apply bind_is_Raise in H.
    destruct H as [H | [fn [_ H]]]; [| discriminate].
    apply float_of_int_Raise in H. subst. now left.
Qed.

(** What the estimate raises is one of the four messages of [raised]:
    no division by zero. *)
Lemma estimate_Raise (file_bytes : list Byte.byte)
    (total_size chunk_size : Z) (msg : string) :
  estimate_chunks file_bytes total_size chunk_size = Raise msg ->
  In msg raised.
Proof.
  rewrite estimate_steps. cbv zeta.
  set (raw_data := firstn FILE_SAMPLE_SIZE file_bytes).
  set (lines := count_newlines raw_data).
  intros H. apply bind_is_Raise in H. destruct H as [H | [avg [_ H]]].
  - destruct (0 <? lines) eqn:El; [| discriminate].
    apply Z.ltb_lt in El.
    apply bind_is_Raise in H. destruct H as [H | [q [_ H]]]; [| discriminate].
    apply int_true_div_Raise in H; [| lia]. subst. right. now left.
  - apply bind_is_Raise in H. destruct H as [H | [est [_ H]]].
    + apply int_mul_Raise in H. subst. now left.
    + apply bind_is_Raise in H. destruct H as [H | [n [_ H]]]; [| discriminate].
      destruct (is_positive est) eqn:Ep; [| discriminate].
      apply bind_is_Raise in H. destruct H as [H | [q [_ H]]].
      * now apply (int_div_Raise total_size est).
      * apply ceil_Raise in H. destruct H as [-> | ->];
          [right; right; now left | right; right; right; now left].
Qed.

(** With a chunk size that is not positive the estimate, when there is
    one, is 1. *)
Lemma estimate_without_product (file_bytes : list Byte.byte)
    (total_size chunk_size : Z) (e : estimate) :
  chunk_size <= 0 ->
  estimate_chunks file_bytes total_size chunk_size = Ok e ->
  total_chunks e = 1.
Proof.
  intros Hc H.
  pose proof (estimate_Ok file_bytes total_size chunk_size e H) as Hok.
  cbv zeta in Hok.
  set (raw_data := firstn FILE_SAMPLE_SIZE file_bytes) in *.
  pose proof (count_newlines_bounds raw_data) as Hb.
  destruct Hok as [Hfloat [Hint [est [Hest [_ Hone]]]]].
  apply Hone. apply (product_not_positive chunk_size (avg_row_size e));
    [exact Hc | | exact Hest].
  destruct (Z.eq_dec (count_newlines raw_data) 0) as [E | E].
  - rewrite (Hint E). reflexivity.
  - destruct Hfloat as [q [Hq ->]]; [lia |].
    apply int_true_div_Ok in Hq.
    replace (Z.of_nat (List.length raw_data) <? 0) with false in Hq
      by (symmetry; apply Z.ltb_ge; lia).
    replace (count_newlines raw_data <? 0) with false in Hq
      by (symmetry; apply Z.ltb_ge; lia).
    exact (proj1 Hq).
Qed.

(** A sample without a newline: the estimate is computed on integers
    up to the last division. *)
Lemma estimate_without_newline (file_bytes : list Byte.byte)
    (total_size chunk_size : Z) :
  count_newlines (firstn FILE_SAMPLE_SIZE file_bytes) = 0 ->
  estimate_chunks file_bytes total_size chunk_size =
  if 0 <? chunk_size
  then q <- int_true_div total_size (chunk_size * 150) ;;
       n <- ceil q ;;
       Ok (mkEstimate (PyInt 150) n)
  else Ok (mkEstimate (PyInt 150) 1).
Proof.
  intros Hl. rewrite estimate_steps. cbv zeta. rewrite Hl.
  change (0 <? 0) with false. cbn [bind int_mul is_positive int_div].
  destruct (0 <? chunk_size) eqn:Ec.
  - apply Z.ltb_lt in Ec.
    replace (0 <? chunk_size * 150) with true by (symmetry; apply Z.ltb_lt; lia).
    destruct (int_true_div total_size (chunk_size * 150)) as [q | m];
      [| reflexivity].
    cbn [bind]. destruct (ceil q); reflexivity.
  - apply Z.ltb_ge in Ec.
    replace (0 <? chunk_size * 150) with false by (symmetry; apply Z.ltb_ge; lia).
    reflexivity.
Qed.

(** An empty file whose sample has no newline: 0 chunks. *)
Lemma estimate_of_size_0 (file_bytes : list Byte.byte) (chunk_size : Z) :
  count_newlines (firstn FILE_SAMPLE_SIZE file_bytes) = 0 ->
  0 < chunk_size ->
  estimate_chunks file_bytes 0 chunk_size = Ok (mkEstimate (PyInt 150) 0).
Proof.
  intros Hl Hc. rewrite (estimate_without_newline _ _ _ Hl).
  replace (0 <? chunk_size) with true by (symmetry; apply Z.ltb_lt; lia).
  unfold int_true_div.
  destruct (chunk_size * 150) as [| p | p] eqn:E; [lia | reflexivity | lia].
Qed.

End EstimatorFacts.

(** ** A whole run *)

Module RunFacts.
Import Pandas Engine Trace DictFacts CounterFacts PandasFacts EngineFacts.

Lemma column_counter_absent (col : string) (seen : list DataFrame) :
  forall acc,
  Forall (fun ch => ~ In col (columns ch)) seen ->
  column_counter acc seen col = acc.
Proof.
  induction seen as [| ch seen IH]; intros acc Hall; [reflexivity |].
  inversion Hall as [| ? ? Hch Hall']; subst.
  simpl column_counter. rewrite step_counter_absent.
  - now apply IH.
  - destruct (contains ch col) eqn:E; [| reflexivity].
    apply contains_iff in E. tauto.
Qed.

Lemma Forall_firstn {A : Type} (P : A -> Prop) (k : nat) (l : list A) :
  Forall P l -> Forall P (firstn k l).
Proof.
  intros H. revert k. induction H as [| x l Hx Hl IH]; intros k.
  - rewrite firstn_nil. constructor.
  - destruct k; simpl; constructor; auto.
Qed.

Section Uniform.
Variable cols : list string.
Variable reader : list DataFrame.
Hypothesis cols_nonempty : cols <> [].
Hypothesis cols_NoDup : NoDup cols.
Hypothesis reader_uniform : Forall (fun ch => columns ch = cols) reader.

(** Every chunk boundary is reached, and there each column's Counter
    is the one built from the chunks merged so far. *)
Lemma boundary_state (k : nat) :
  exists st,
    state_at reader k = Ok st /\
    chunk_num st = Nat.min k (List.length reader) /\
    (forall col c, dict_lookup (value_counters st) col = Some c ->
                   In col cols) /\
    (forall col, counter_of (value_counters st) col =
                 column_counter [] (firstn k reader) col) /\
    ((0 < Nat.min k (List.length reader))%nat ->
     map fst (value_counters st) = cols).
Proof.
  unfold state_at.
  destruct (firstn k reader) as [| chunk chunks] eqn:Ef.
  - exists initial_state. simpl.
    assert (Hk : Nat.min k (List.length reader) = 0%nat).
    { rewrite <- (length_firstn k reader), Ef. reflexivity. }
    rewrite Hk. repeat split; try discriminate; try reflexivity. lia.
  - assert (Hu : Forall (fun ch => columns ch = cols) (chunk :: chunks)).
    { rewrite <- Ef. now apply Forall_firstn. }
    assert (Hc : columns chunk = cols) by (now inversion Hu).
    destruct (merge_chunks_initial chunk chunks) as [st [Hm Ha]];
      [congruence | congruence |].
    rewrite Hc in Ha. destruct Ha as [Hh [Hk [Hn Hl]]].
    exists st. split; [exact Hm |]. split.
    { rewrite Hn, <- Ef. apply length_firstn. }
    split.
    { intros col c Hlk. rewrite <- Hk. apply lookup_in. eauto. }
    split; [| auto].
    intros col. unfold counter_of.
    destruct (in_dec string_dec col cols) as [Hin | Hni].
    + now rewrite Hl.
    + destruct (dict_lookup (value_counters st) col) as [c |] eqn:El.
      * exfalso. apply Hni. rewrite <- Hk. apply lookup_in. eauto.
      * symmetry. apply column_counter_absent.
        eapply Forall_impl; [| exact Hu].
        intros ch Hch. simpl in Hch. now rewrite Hch.
Qed.

(** The loop merges the chunks checked before the flag went up and
    leaves the chunks after the one it dropped unread. *)
Lemma chunk_loop_shape (stop_at : option nat) :
  let k := merged_count stop_at (List.length reader) in
  exists st,
    state_at reader k = Ok st /\
    chunk_loop stop_at 0 initial_state reader =
    Ok (st,
        if (k <? List.length reader)%nat then S k else List.length reader,
        skipn (S k) reader).
Proof.
  intros k. destruct (boundary_state k) as [st [Hst _]].
  exists st. split; [exact Hst |]. unfold state_at in Hst.
  destruct stop_at as [t |]; simpl in k.
  - destruct (Nat.lt_ge_cases t (List.length reader)) as [Hlt | Hge].
    + assert (Ek : k = t) by (unfold k; lia). rewrite Ek in *.
      pose proof (chunk_loop_stop reader 0 initial_state t Hlt) as Hs.
      rewrite Nat.add_0_l in Hs. rewrite Hs, Hst.
      simpl. apply Nat.ltb_lt in Hlt. now rewrite Hlt.
    + assert (Ek : k = List.length reader) by (unfold k; lia).
      rewrite Ek in *. rewrite firstn_all in Hst.
      rewrite chunk_loop_late by (simpl; lia). rewrite Hst.
      cbn [bind]. rewrite Nat.add_0_l, Nat.ltb_irrefl.
      rewrite skipn_all2 by lia. reflexivity.
  - subst k. cbn [merged_count] in *. rewrite firstn_all in Hst.
    rewrite chunk_loop_never, Hst.
    cbn [bind]. rewrite Nat.add_0_l, Nat.ltb_irrefl.
    rewrite skipn_all2 by lia. reflexivity.
Qed.

End Uniform.

(** What [process_csv_thread] returns, in terms of the chunk
    boundaries of the reader. *)
Lemma run_shape (basename now : string) (file : DataFrame)
    (top_n chunk_size : Z) (stop_at : option nat) :
  columns file <> [] -> NoDup (columns file) -> 1 <= chunk_size ->
  exists reader st,
    read_csv file chunk_size = Some reader /\
    Forall (fun ch => columns ch = columns file) reader /\
    List.concat (map rows reader) = rows file /\
    reader <> [] /\
    let k := merged_count stop_at (List.length reader) in
    let polls := if (k <? List.length reader)%nat
                 then S k else List.length reader in
    state_at reader k = Ok st /\
    process_csv_thread basename now file top_n chunk_size stop_at =
    mkRun (if is_set stop_at polls then STOPPED
           else generate_report basename now (value_counters st) top_n)
          (negb (is_set stop_at (S polls)))
          (value_counters st) (chunk_num st) (skipn (S k) reader).
Proof.
  intros Hne Hnd Hn.
  destruct (read_csv_ok file chunk_size Hn) as [chunk [chunks [Hr [Hu Hc]]]].
  destruct (chunk_loop_shape (columns file) (chunk :: chunks) Hne Hnd Hu stop_at)
    as [st [Hst Hloop]].
  exists (chunk :: chunks), st.
  split; [exact Hr |]. split; [exact Hu |]. split; [exact Hc |].
  split; [discriminate |].
  cbv zeta. split; [exact Hst |].
  unfold process_csv_thread. rewrite Hr. cbn [bind]. rewrite Hloop.
  reflexivity.
Qed.

Lemma column_cells_file (file : DataFrame) (reader : list DataFrame)
    (col : string) :
  Forall (fun ch => columns ch = columns file) reader ->
  List.concat (map rows reader) = rows file ->
  column_cells reader col = getcol file col.
Proof.
  intros Hu Hc. rewrite (column_cells_uniform (columns file)) by assumption.
  rewrite Hc. reflexivity.
Qed.



Lemma lookup_counter_of (d : counters) (col : string) (c : Counter.t) :
  dict_lookup d col = Some c -> counter_of d col = c.
Proof. intros H. unfold counter_of. now rewrite H. Qed.

(** Everything the properties below need to know about a run. *)
Lemma run_facts (basename now : string) (file : DataFrame)
    (top_n chunk_size : Z) (stop_at : option nat) :
  columns file <> [] -> NoDup (columns file) -> 1 <= chunk_size ->
  exists reader st,
    read_csv file chunk_size = Some reader /\
    reader <> [] /\
    (forall col, column_cells reader col = getcol file col) /\
    (forall k, exists stk,
       state_at reader k = Ok stk /\
       chunk_num stk = Nat.min k (List.length reader) /\
       (forall col c, dict_lookup (value_counters stk) col = Some c ->
                      In col (columns file)) /\
       (forall col, counter_of (value_counters stk) col =
                    column_counter [] (firstn k reader) col) /\
       ((0 < Nat.min k (List.length reader))%nat ->
        map fst (value_counters stk) = columns file)) /\
    let k := merged_count stop_at (List.length reader) in
    let polls := if (k <? List.length reader)%nat
                 then S k else List.length reader in
    state_at reader k = Ok st /\
    process_csv_thread basename now file top_n chunk_size stop_at =
    mkRun (if is_set stop_at polls then STOPPED
           else generate_report basename now (value_counters st) top_n)
          (negb (is_set stop_at (S polls)))
          (value_counters st) (chunk_num st) (skipn (S k) reader).
Proof.
  intros Hne Hnd Hn.
  destruct (run_shape basename now file top_n chunk_size stop_at Hne Hnd Hn)
    as [reader [st [Hr [Hu [Hc [Hre Hrun]]]]]].
  exists reader, st.
  split; [exact Hr |]. split; [exact Hre |].
  split; [intros col; now apply column_cells_file |].
  split; [| exact Hrun].
  intros k. apply boundary_state; assumption.
Qed.




Lemma col_index_Some (col : string) (cols : list string) :
  In col cols -> exists i, col_index col cols = Some i.
Proof.
  induction cols as [| c cols IH]; simpl; intros H; [tauto |].
  destruct (String.eqb col c) eqn:E; [eauto |].
  apply String.eqb_neq in E.
  destruct IH as [i Hi]; [destruct H; congruence |].
  rewrite Hi. simpl. eauto.
Qed.

(** A column the chunks have holds one cell per row. *)
Lemma column_cells_length (cols : list string) (chunks : list DataFrame)
    (col : string) :
  Forall (fun ch => columns ch = cols) chunks -> In col cols ->
  Z.of_nat (List.length (column_cells chunks col)) = row_count chunks.
Proof.
  intros Hu Hin. rewrite (column_cells_uniform cols) by assumption.
  unfold getcol, row_count. cbn [columns rows].
  destruct (col_index_Some col cols Hin) as [i Hi]. rewrite Hi.
  now rewrite length_map.
Qed.

Lemma present_le (cells : list scalar) :
  present cells <= Z.of_nat (List.length cells).
Proof.
  unfold present. pose proof (filter_length_le notna cells). lia.
Qed.

Lemma present_all (cells : list scalar) :
  Forall (fun x => x <> NaN) cells ->
  present cells = Z.of_nat (List.length cells).
Proof.
  intros H. unfold present. f_equal. f_equal.
  apply forallb_filter_id. apply forallb_forall.
  intros x Hx. pose proof (proj1 (Forall_forall _ _) H x Hx).
  destruct x; simpl; congruence.
Qed.

Lemma read_csv_uniform (file : DataFrame) (chunk_size : Z)
    (reader : list DataFrame) :
  1 <= chunk_size -> read_csv file chunk_size = Some reader ->
  Forall (fun ch => columns ch = columns file) reader.
Proof.
  intros Hn Hr.
  destruct (read_csv_ok file chunk_size Hn) as [ch [chs [Hr' [Hu _]]]].
  congruence.
Qed.

Lemma firstn_S_split {A : Type} (k : nat) (l : list A) :
  exists tail, firstn (S k) l = firstn k l ++ tail.
Proof.
  revert l. induction k as [| k IH]; intros l.
  - exists (firstn 1 l). reflexivity.
  - destruct l as [| x l]; [exists []; reflexivity |].
    destruct (IH l) as [tail Ht]. exists tail.
    change (firstn (S (S k)) (x :: l)) with (x :: firstn (S k) l).
    rewrite Ht. reflexivity.
Qed.

Lemma occurrences_nonneg (cells : list scalar) (v : scalar) :
  0 <= Spec.occurrences cells v.
Proof. unfold Spec.occurrences. lia. Qed.

Lemma filter_notna_idem (cells : list scalar) :
  filter notna (filter notna cells) = filter notna cells.
Proof.
  induction cells as [| x cells IH]; [reflexivity |].
  simpl. destruct (notna x) eqn:E; simpl; rewrite ?E, IH; reflexivity.
Qed.

Lemma value_counts_entry (cells : list scalar) (v : scalar) (n : Z) :
  In (v, n) (value_counts cells) ->
  v <> NaN /\ n = Spec.occurrences (filter notna cells) v.
Proof.
  intros Hin.
  assert (Hk : In v (Counter.keys (value_counts cells))).
  { change v with (fst (v, n)). now apply in_map. }
  apply value_counts_keys in Hk. split; [tauto |].
  rewrite <- value_counts_get. symmetry.
  apply In_get; [apply value_counts_NoDup | exact Hin].
Qed.

End RunFacts.

(** ** Files of raw fields *)

Module RawFacts.
Import Pandas Engine Raw.


















End RawFacts.

(** ** The final maps of a run of the engine *)

Module FinalFacts.
Import Pandas Engine Trace Spec.



End FinalFacts.

(** * The properties of the specification

    The properties about a run are stated for a file with a header row:
    its list of columns is not empty and, as pandas renames repeated
    names, has no duplicates.  Where a property depends on how pandas
    types the cells, the file is one of raw fields ([Raw.file]) and each
    chunk is typed on its own. *)

Import Pandas Engine Trace Spec Layout.

(** ** Validation of the two parameters *)

(** C7.  Whatever text the two entry fields hold, and however [int]
    reads text as long as it rejects [abc]: [validate_top_n] returns the
    parsed integer when the text parses as an integer greater than 0 and
    otherwise the default 10 with a warning, and [validate_chunk_size]
    returns the parsed integer when it is at least 500 and otherwise the
    default 9000 with a warning; both always return, and the text [abc]
    gives 10 with a warning. *)
Theorem C7_validation_falls_back_to_defaults (int_of : string -> option Z)
    (top_n_var chunk_size_var : string) :
  int_of "abc" = None ->
  let t := Validation.validate_top_n int_of top_n_var in
  let c := Validation.validate_chunk_size int_of chunk_size_var in
  ((exists n, int_of top_n_var = Some n /\ 0 < n /\
              Validation.value t = n /\ Validation.warning t = None /\
              Validation.entry_after t = top_n_var)
   \/
   ((forall n, int_of top_n_var = Some n -> n <= 0) /\
    Validation.value t = 10 /\ Validation.warning t <> None /\
    Validation.entry_after t = "10")) /\
  ((exists n, int_of chunk_size_var = Some n /\ 500 <= n /\
              Validation.value c = n /\ Validation.warning c = None /\
              Validation.entry_after c = chunk_size_var)
   \/
   ((forall n, int_of chunk_size_var = Some n -> n < 500) /\
    Validation.value c = 9000 /\ Validation.warning c <> None /\
    Validation.entry_after c = "9000")) /\
  Validation.value (Validation.validate_top_n int_of "abc") = 10 /\
  Validation.warning (Validation.validate_top_n int_of "abc") <> None.
Proof.
  intros Habc. cbv zeta.
  unfold Validation.validate_top_n, Validation.validate_chunk_size.
  split; [| split].
  - destruct (int_of top_n_var) as [n |].
    + destruct (0 <? n) eqn:E.
      * apply Z.ltb_lt in E. left. exists n. auto.
      * apply Z.ltb_ge in E. right. simpl.
        split; [intros m Hm; congruence |].
        split; [reflexivity |]. split; [discriminate | reflexivity].
    + right. simpl.
      split; [intros m Hm; discriminate |].
      split; [reflexivity |]. split; [discriminate | reflexivity].
  - destruct (int_of chunk_size_var) as [n |].
    + destruct (Validation.MIN_CHUNK_SIZE <=? n) eqn:E.
      * apply Z.leb_le in E. left. exists n. auto.
      * apply Z.leb_gt in E. right. simpl.
        split; [intros m Hm; injection Hm as <-; exact E |].
        split; [reflexivity |]. split; [discriminate | reflexivity].
    + right. simpl.
      split; [intros m Hm; discriminate |].
      split; [reflexivity |]. split; [discriminate | reflexivity].
  - rewrite Habc. simpl. split; [reflexivity | discriminate].
Qed.

Lemma C7_validation_falls_back_to_defaults_witness :
  Validation.py_int "abc" = None /\
  Validation.value (Validation.validate_top_n Validation.py_int "abc") = 10.
Proof.
  assert (H : Validation.py_int "abc" = None) by reflexivity.
  split; [exact H |].
  destruct (C7_validation_falls_back_to_defaults Validation.py_int "abc" "500" H)
    as [_ [_ [Hv _]]].
  exact Hv.
Defined.

(** ** The estimator *)

(** The estimate on some inputs, with the values CPython computes.  A
    file of 1001 bytes in 500 lines and a bit, read 500 rows at a time:
    the average is 2.002, the product 1000.9999999999999 and the estimate
    2, where the exact quotient is 1.  A chunk size of [2^1024 - 2^970]
    or more does not convert to a float; just below, the product is
    infinite and the estimate 0.  Without a newline in the sample the
    product is an integer, and a file size too large for the quotient
    raises. *)
Example estimate_as_cpython :
  Estimator.estimate_chunks Estimator.sample_1001 1001 500 =
  Ok (Estimator.mkEstimate
        (Estimator.PyFloat (SpecFloat.S754_finite false 4508103226997866 (-51)))
        2) /\
  - ((- (1001 * 500)) / (500 * 1001)) = 1 /\
  Estimator.estimate_chunks Estimator.sample_3 1000000 500 =
  Ok (Estimator.mkEstimate
        (Estimator.PyFloat (SpecFloat.S754_finite false 6755399441055744 (-52)))
        1334) /\
  Estimator.estimate_chunks Estimator.sample_3 5 (2 ^ 1024 - 2 ^ 970) =
  Raise "int too large to convert to float" /\
  Estimator.estimate_chunks Estimator.sample_3 5 (2 ^ 1024 - 2 ^ 970 - 1) =
  Ok (Estimator.mkEstimate
        (Estimator.PyFloat (SpecFloat.S754_finite false 6755399441055744 (-52)))
        0) /\
  Estimator.estimate_chunks [Byte.x41; Byte.x41] 2 (10 ^ 400) =
  Ok (Estimator.mkEstimate (Estimator.PyInt 150) 0) /\
  Estimator.estimate_chunks [Byte.x41; Byte.x41] (10 ^ 400) 1 =
  Raise "integer division result too large for a float".
Proof. vm_compute. repeat split. Qed.

(** On an empty file the estimate is 0 chunks, below the floor of 1 the
    specification announces. *)
Lemma C6_estimate_of_empty_file_is_zero :
  exists e,
    Estimator.estimate_chunks [] 0 500 = Ok e /\
    Estimator.total_chunks e = 0 /\
    ~ (1 <= Estimator.total_chunks e).
Proof.
  exists (Estimator.mkEstimate (Estimator.PyInt 150) 0).
  split; [vm_compute; reflexivity |]. split; [reflexivity |].
  simpl. lia.
Qed.

(** C6, as the code has it.  The sample is the first 50000 bytes of the
    file.  When the estimate returns: the average row size is the
    binary64 quotient of the sample length by the number of newline
    bytes, or the integer 150 when the sample has no newline; the
    estimate is 1 when chunk size times average is not above 0, which is
    so for every chunk size that is not positive, and otherwise the
    ceiling of the binary64 quotient of the file size by that product.
    When it raises, it raises one of the four exceptions of [raised],
    overflows of the conversions to float, never a division by zero.
    Without a newline in the sample everything up to the last division
    is integer arithmetic, and an empty file gets 0 chunks. *)
Theorem C6_estimator_values (file_bytes : list Byte.byte)
    (total_size chunk_size : Z) :
  let raw_data := firstn Estimator.FILE_SAMPLE_SIZE file_bytes in
  let len := Z.of_nat (List.length raw_data) in
  let lines := Estimator.count_newlines raw_data in
  let r := Estimator.estimate_chunks file_bytes total_size chunk_size in
  0 <= lines <= len /\
  (forall e, r = Ok e ->
     (0 < lines ->
      exists q, Estimator.int_true_div len lines = Ok q /\
                Estimator.avg_row_size e = Estimator.PyFloat q) /\
     (lines = 0 -> Estimator.avg_row_size e = Estimator.PyInt 150) /\
     exists product,
       Estimator.int_mul chunk_size (Estimator.avg_row_size e) = Ok product /\
       (Estimator.is_positive product = true ->
        exists q, Estimator.int_div total_size product = Ok q /\
                  Estimator.ceil q = Ok (Estimator.total_chunks e)) /\
       (Estimator.is_positive product = false -> Estimator.total_chunks e = 1)) /\
  (forall e, r = Ok e -> chunk_size <= 0 -> Estimator.total_chunks e = 1) /\
  (forall msg, r = Raise msg ->
     In msg Estimator.raised /\ msg <> "division by zero") /\
  (lines = 0 ->
   r = if 0 <? chunk_size
       then q <- Estimator.int_true_div total_size (chunk_size * 150) ;;
            n <- Estimator.ceil q ;;
            Ok (Estimator.mkEstimate (Estimator.PyInt 150) n)
       else Ok (Estimator.mkEstimate (Estimator.PyInt 150) 1)) /\
  (lines = 0 -> 0 < chunk_size -> total_size = 0 ->
   r = Ok (Estimator.mkEstimate (Estimator.PyInt 150) 0)).
Proof.
  intros raw_data len lines r.
  split; [apply EstimatorFacts.count_newlines_bounds |].
  split; [intros e He; exact (EstimatorFacts.estimate_Ok _ _ _ e He) |].
  split.
  { intros e He Hc.
    exact (EstimatorFacts.estimate_without_product _ _ _ e Hc He). }
  split.
  { intros msg Hm. apply EstimatorFacts.estimate_Raise in Hm.
    split; [exact Hm |].
    intros ->. simpl in Hm.
    destruct Hm as [H | [H | [H | [H | []]]]]; discriminate. }
  split.
  { intros Hl. now apply EstimatorFacts.estimate_without_newline. }
  intros Hl Hc ->. now apply EstimatorFacts.estimate_of_size_0.
Qed.

Lemma C6_estimator_values_witness :
  Estimator.estimate_chunks [] 0 500 =
  Ok (Estimator.mkEstimate (Estimator.PyInt 150) 0).
Proof.
  destruct (C6_estimator_values [] 0 500) as [_ [_ [_ [_ [_ H]]]]].
  apply H; reflexivity.
Defined.

(** ** The report *)

(** The example of the specification: a column with OK 15 times, FAIL 7
    times and WARN 3 times, reported with top-N 2. *)
Example report_of_status_column :
  generate_report "data.csv" "2025-07-13 10:00:00"
    [("Status", [(SStr "FAIL", 7); (SStr "OK", 15); (SStr "WARN", 3)])] 2
  = "--- CSV Analysis Report ---" +++ nl
    +++ "File: data.csv" +++ nl
    +++ "Analysis Date: 2025-07-13 10:00:00" +++ nl
    +++ "Top 2 values:" +++ nl
    +++ "========================================" +++ nl +++ nl
    +++ "--- Column 1: 'Status' ---" +++ nl
    +++ "  - Value: 'OK' | Count: 15" +++ nl
    +++ "  - Value: 'FAIL' | Count: 7" +++ nl +++ nl.
Proof. vm_compute. reflexivity. Qed.

(** C5.  For every dict of frequency maps and every positive top-N the
    report is the header block followed by one section per column, in
    the order of the dict, numbered from 1.  A section lists the first
    top-N entries of the ranking of its map by descending count, entries
    of equal count in the order the map has them, so at most top-N; an
    empty map gets the line [No values found.] instead. *)
Theorem C5_report_layout (basename now : string) (d : counters) (top_n : Z) :
  0 < top_n ->
  generate_report basename now d top_n =
  header_block basename now top_n +++ sections 0 d top_n /\
  (forall i col listed,
     section i col [] listed =
     title i col +++ "No values found." +++ nl +++ nl) /\
  forall col c, In (col, c) d ->
    exists r,
      ranked c r /\
      Counter.most_common c top_n = firstn (Z.to_nat top_n) r /\
      (List.length (Counter.most_common c top_n) <= Z.to_nat top_n)%nat.
Proof.
  intros Hn. split; [apply ReportFacts.generate_report_layout |].
  split; [reflexivity |].
  intros col c _. exists (Counter.sort_desc c).
  split; [apply ReportFacts.sort_desc_ranked |].
  split; [reflexivity |].
  unfold Counter.most_common. apply firstn_le_length.
Qed.

Lemma C5_report_layout_witness :
  0 < 2 /\
  generate_report "data.csv" "2025-07-13 10:00:00"
    [("Status", [(SStr "FAIL", 7); (SStr "OK", 15); (SStr "WARN", 3)])] 2 =
  header_block "data.csv" "2025-07-13 10:00:00" 2
  +++ sections 0
        [("Status", [(SStr "FAIL", 7); (SStr "OK", 15); (SStr "WARN", 3)])] 2.
Proof.
  split; [reflexivity |].
  apply (C5_report_layout "data.csv" "2025-07-13 10:00:00"
           [("Status", [(SStr "FAIL", 7); (SStr "OK", 15); (SStr "WARN", 3)])] 2).
  reflexivity.
Defined.

(** Two calls with the same frequency maps and the same top-N, one second
    apart, give two different reports: the header block carries the time
    of the call. *)
Lemma C8_report_changes_with_the_clock :
  generate_report "data.csv" "2025-07-13 10:00:00" [("Status", [(SStr "OK", 15)])] 10
  <> generate_report "data.csv" "2025-07-13 10:00:01" [("Status", [(SStr "OK", 15)])] 10.
Proof. vm_compute. discriminate. Qed.

(** C8, as the code has it.  Two calls of the report generator with the
    same frequency maps and the same top-N give the same column sections
    after their header blocks, and the same text when the file name and
    the time of the call are the same as well. *)
Theorem C8_report_determined_by_inputs
    (basename1 now1 basename2 now2 : string) (d1 d2 : counters) (n1 n2 : Z) :
  d1 = d2 -> n1 = n2 ->
  (exists body,
     generate_report basename1 now1 d1 n1 =
     header_block basename1 now1 n1 +++ body /\
     generate_report basename2 now2 d2 n2 =
     header_block basename2 now2 n2 +++ body) /\
  (basename1 = basename2 -> now1 = now2 ->
   generate_report basename1 now1 d1 n1 = generate_report basename2 now2 d2 n2).
Proof.
  intros <- <-. split.
  - exists (sections 0 d1 n1).
    split; apply ReportFacts.generate_report_layout.
  - intros <- <-. reflexivity.
Qed.

Lemma C8_report_determined_by_inputs_witness :
  exists body,
    generate_report "data.csv" "2025-07-13 10:00:00" [("Status", [(SStr "OK", 15)])] 10 =
    header_block "data.csv" "2025-07-13 10:00:00" 10 +++ body /\
    generate_report "data.csv" "2025-07-13 10:00:01" [("Status", [(SStr "OK", 15)])] 10 =
    header_block "data.csv" "2025-07-13 10:00:01" 10 +++ body.
Proof.
  apply (C8_report_determined_by_inputs
           "data.csv" "2025-07-13 10:00:00" "data.csv" "2025-07-13 10:00:01"
           [("Status", [(SStr "OK", 15)])] [("Status", [(SStr "OK", 15)])] 10 10);
    reflexivity.
Defined.

(** ** The frequency maps of a run *)


(** [tie_file] is what pandas reads from the file of raw fields
    [Raw.tie_raw], whatever the chunk size, and the run above is the run
    on that file. *)
Example tie_file_from_raw_fields :
  Raw.uniform Raw.tie_raw = true /\
  Raw.typed Raw.tie_raw = tie_file /\
  Raw.process_csv_thread "t.csv" "2025-07-13 10:00:00"
    (Ok (Raw.tie_bytes, 1998)) (Ok tt) Raw.tie_raw 1 500 None =
  Some (process_csv_thread "t.csv" "2025-07-13 10:00:00" tie_file 1 500 None).
Proof. repeat split; vm_compute; reflexivity. Qed.






(** ** The invariant on the sum of counts *)

(** A column with a missing cell: after both rows are processed the
    counts of the column sum to 1, not to the 2 rows processed. *)
Lemma C3_missing_cell_is_not_counted :
  let r := process_csv_thread "g.csv" "2025-07-13 10:00:00" gap_file 10 500 None in
  success r = true /\
  chunks_analyzed r = 1%nat /\
  Z.of_nat (List.length (rows gap_file)) = 2 /\
  Counter.total (counter_of (final_counters r) "a") = 1 /\
  Counter.total (counter_of (final_counters r) "a")
  <> Z.of_nat (List.length (rows gap_file)).
Proof. vm_compute. repeat split; discriminate. Qed.

(** C3, as the code has it.  At every chunk boundary of a run, and when
    the run ends, completed or cancelled, the counts in a column's map
    sum to the number of cells of that column that are not missing in the
    chunks merged so far.  That is at most the number of rows merged so
    far, and equal to it when none of these cells is missing. *)
Theorem C3_counts_sum_to_present_cells (basename now : string)
    (file : DataFrame) (top_n chunk_size : Z) (stop_at : option nat) :
  columns file <> [] -> NoDup (columns file) -> 1 <= chunk_size ->
  exists reader,
    read_csv file chunk_size = Some reader /\
    (forall k, exists st,
       state_at reader k = Ok st /\
       forall col, In col (columns file) ->
         let cells := column_cells (firstn k reader) col in
         Counter.total (counter_of (value_counters st) col) = present cells /\
         present cells <= row_count (firstn k reader) /\
         (Forall (fun x => x <> NaN) cells ->
          present cells = row_count (firstn k reader))) /\
    let r := process_csv_thread basename now file top_n chunk_size stop_at in
    (chunks_analyzed r <= List.length reader)%nat /\
    exists st,
      state_at reader (chunks_analyzed r) = Ok st /\
      final_counters r = value_counters st.
Proof.
  intros Hne Hnd Hn.
  destruct (RunFacts.run_facts basename now file top_n chunk_size stop_at
              Hne Hnd Hn)
    as [reader [st [Hr [Hre [Hcells [Hb [Hst Hrun]]]]]]].
  pose proof (RunFacts.read_csv_uniform file chunk_size reader Hn Hr) as Hu.
  exists reader. split; [exact Hr |]. split.
  - intros k. destruct (Hb k) as [stk [Hstk [_ [_ [Hcnt _]]]]].
    exists stk. split; [exact Hstk |].
    intros col Hcol cells.
    assert (Hlen : Z.of_nat (List.length cells) = row_count (firstn k reader)).
    { apply (RunFacts.column_cells_length (columns file));
        [now apply RunFacts.Forall_firstn | exact Hcol]. }
    split.
    + rewrite Hcnt.
      rewrite EngineFacts.column_counter_total by constructor.
      reflexivity.
    + split.
      * rewrite <- Hlen. apply RunFacts.present_le.
      * intros Hall. rewrite <- Hlen. now apply RunFacts.present_all.
  - cbv zeta. rewrite Hrun. cbn [chunks_analyzed final_counters].
    set (k := merged_count stop_at (List.length reader)) in *.
    destruct (Hb k) as [stk [Hstk [Hnum _]]].
    rewrite Hst in Hstk. injection Hstk as <-.
    assert (Hk : (k <= List.length reader)%nat).
    { unfold k, merged_count. destruct stop_at; lia. }
    rewrite Hnum, Nat.min_l by exact Hk.
    split; [exact Hk |]. exists st. auto.
Qed.

Lemma C3_counts_sum_to_present_cells_witness :
  (columns gap_file <> [] /\ NoDup (columns gap_file) /\ 1 <= 500) /\
  exists reader,
    read_csv gap_file 500 = Some reader /\
    (forall k, exists st,
       state_at reader k = Ok st /\
       forall col, In col (columns gap_file) ->
         let cells := column_cells (firstn k reader) col in
         Counter.total (counter_of (value_counters st) col) = present cells /\
         present cells <= row_count (firstn k reader) /\
         (Forall (fun x => x <> NaN) cells ->
          present cells = row_count (firstn k reader))) /\
    let r := process_csv_thread "g.csv" "2025-07-13 10:00:00" gap_file 10 500
               (Some 0%nat) in
    (chunks_analyzed r <= List.length reader)%nat /\
    exists st,
      state_at reader (chunks_analyzed r) = Ok st /\
      final_counters r = value_counters st.
Proof.
  assert (H1 : columns gap_file <> []) by discriminate.
  assert (H2 : NoDup (columns gap_file)) by (repeat constructor; intros []).
  assert (H3 : 1 <= 500) by discriminate.
  split; [auto |].
  apply (C3_counts_sum_to_present_cells
           "g.csv" "2025-07-13 10:00:00" gap_file 10 500 (Some 0%nat) H1 H2 H3).
Defined.

(** ** Cancellation *)

(** C4.  When the flag is set before the check the loop makes for chunk
    number [t] of the reader (counted from 0), the run merges the [t]
    chunks before it and nothing else: the chunk just read is dropped,
    the chunks after it are never read, no report is generated, and the
    result is the stopped outcome. *)
Theorem C4_cancellation_stops_the_run (basename now : string)
    (file : DataFrame) (top_n chunk_size : Z) (reader : list DataFrame)
    (t : nat) :
  columns file <> [] -> NoDup (columns file) -> 1 <= chunk_size ->
  read_csv file chunk_size = Some reader ->
  (t < List.length reader)%nat ->
  let r := process_csv_thread basename now file top_n chunk_size (Some t) in
  report_content r = "Processing was stopped before completion." /\
  success r = false /\
  chunks_analyzed r = t /\
  unread r = skipn (S t) reader /\
  exists st,
    state_at reader t = Ok st /\ final_counters r = value_counters st.
Proof.
  intros Hne Hnd Hn Hread Ht.
  destruct (RunFacts.run_facts basename now file top_n chunk_size (Some t)
              Hne Hnd Hn)
    as [reader' [st [Hr [Hre [Hcells [Hb [Hst Hrun]]]]]]].
  assert (reader' = reader) by congruence. subst reader'.
  cbn [merged_count] in Hst, Hrun.
  rewrite Nat.min_l in Hst, Hrun by lia.
  assert (Hlt : (t <? List.length reader)%nat = true) by (apply Nat.ltb_lt; lia).
  rewrite Hlt in Hrun.
  destruct (Hb t) as [stk [Hstk [Hnum _]]].
  rewrite Hst in Hstk. injection Hstk as <-.
  cbv zeta. rewrite Hrun.
  cbn [report_content success chunks_analyzed unread final_counters is_set].
  replace (t <=? S t)%nat with true by (symmetry; apply Nat.leb_le; lia).
  replace (t <=? S (S t))%nat with true by (symmetry; apply Nat.leb_le; lia).
  split; [reflexivity |]. split; [reflexivity |].
  split; [rewrite Hnum; lia |]. split; [reflexivity |].
  exists st. auto.
Qed.

Lemma C4_cancellation_stops_the_run_witness :
  (columns tie_file <> [] /\ NoDup (columns tie_file) /\ 1 <= 500 /\
   read_csv tie_file 500 = Some (tie_reader 500) /\
   (1 < List.length (tie_reader 500))%nat) /\
  let r := process_csv_thread "t.csv" "2025-07-13 10:00:00" tie_file 1 500
             (Some 1%nat) in
  report_content r = "Processing was stopped before completion." /\
  success r = false /\
  chunks_analyzed r = 1%nat /\
  unread r = skipn 2 (tie_reader 500) /\
  exists st,
    state_at (tie_reader 500) 1 = Ok st /\ final_counters r = value_counters st.
Proof.
  assert (H1 : columns tie_file <> []) by discriminate.
  assert (H2 : NoDup (columns tie_file)) by (repeat constructor; intros []).
  assert (H3 : 1 <= 500) by discriminate.
  assert (H4 : read_csv tie_file 500 = Some (tie_reader 500))
    by (vm_compute; reflexivity).
  assert (H5 : (1 < List.length (tie_reader 500))%nat)
    by (vm_compute; repeat constructor).
  split; [auto |].
  apply (C4_cancellation_stops_the_run
           "t.csv" "2025-07-13 10:00:00" tie_file 1 500 (tie_reader 500) 1
           H1 H2 H3 H4 H5).
Defined.

(** ** Missing cells *)

(** C9.  For every chunk and column, what is merged into the column's
    map is computed from the cells that are not missing: the per-chunk
    distribution is the same with the missing cells removed, none of its
    entries has the missing marker as value, and each of its counts is
    the number of occurrences among the cells that are not missing.  So
    in every run no map ever holds the missing marker, and every count is
    a number of occurrences among the cells that are not missing in the
    chunks merged. *)
Theorem C9_missing_cells_are_not_counted (basename now : string)
    (file : DataFrame) (top_n chunk_size : Z) (stop_at : option nat) :
  columns file <> [] -> NoDup (columns file) -> 1 <= chunk_size ->
  (forall (chunk : DataFrame) (col : string),
     value_counts (getcol chunk col) =
     value_counts (filter notna (getcol chunk col)) /\
     forall v n, In (v, n) (to_dict (value_counts (getcol chunk col))) ->
                 v <> NaN /\
                 n = occurrences (filter notna (getcol chunk col)) v) /\
  let r := process_csv_thread basename now file top_n chunk_size stop_at in
  (forall col c, dict_lookup (final_counters r) col = Some c ->
                 ~ In NaN (Counter.keys c)) /\
  exists reader,
    read_csv file chunk_size = Some reader /\
    forall col v,
      Counter.get (counter_of (final_counters r) col) v 0 =
      occurrences
        (filter notna (column_cells (firstn (chunks_analyzed r) reader) col)) v.
Proof.
  intros Hne Hnd Hn. split.
  - intros chunk col. split.
    + unfold value_counts. now rewrite RunFacts.filter_notna_idem.
    + intros v n. rewrite PandasFacts.to_dict_value_counts.
      apply RunFacts.value_counts_entry.
  - destruct (RunFacts.run_facts basename now file top_n chunk_size stop_at
                Hne Hnd Hn)
      as [reader [st [Hr [Hre [Hcells [Hb [Hst Hrun]]]]]]].
    cbv zeta. rewrite Hrun. cbn [chunks_analyzed final_counters].
    set (k := merged_count stop_at (List.length reader)) in *.
    destruct (Hb k) as [stk [Hstk [Hnum [_ [Hcnt _]]]]].
    rewrite Hst in Hstk. injection Hstk as <-.
    assert (Hk : (k <= List.length reader)%nat).
    { unfold k, merged_count. destruct stop_at; lia. }
    rewrite Hnum, Nat.min_l by exact Hk.
    split.
    + intros col c Hc Hin.
      apply RunFacts.lookup_counter_of in Hc. rewrite Hcnt in Hc. subst c.
      apply EngineFacts.column_counter_keys in Hin.
      destruct Hin as [[] | [_ Hin]]. congruence.
    + exists reader. split; [exact Hr |].
      intros col v. rewrite Hcnt, EngineFacts.column_counter_get.
      reflexivity.
Qed.

Lemma C9_missing_cells_are_not_counted_witness :
  (columns gap_file <> [] /\ NoDup (columns gap_file) /\ 1 <= 500) /\
  forall col c,
    dict_lookup
      (final_counters
         (process_csv_thread "g.csv" "2025-07-13 10:00:00" gap_file 10 500 None))
      col = Some c ->
    ~ In NaN (Counter.keys c).
Proof.
  assert (H1 : columns gap_file <> []) by discriminate.
  assert (H2 : NoDup (columns gap_file)) by (repeat constructor; intros []).
  assert (H3 : 1 <= 500) by discriminate.
  split; [auto |].
  apply (C9_missing_cells_are_not_counted
           "g.csv" "2025-07-13 10:00:00" gap_file 10 500 None H1 H2 H3).
Defined.

(** ** Counts are positive and never decrease *)

(** C10.  At every chunk boundary of a run every entry of every column's
    map has a count above 0, and from one boundary to the next no count
    of any value in any column decreases; the maps a run ends with are
    those of the boundary it stopped at. *)
Theorem C10_counts_positive_and_growing (basename now : string)
    (file : DataFrame) (top_n chunk_size : Z) (stop_at : option nat) :
  columns file <> [] -> NoDup (columns file) -> 1 <= chunk_size ->
  exists reader,
    read_csv file chunk_size = Some reader /\
    (forall k, exists st st',
       state_at reader k = Ok st /\
       state_at reader (S k) = Ok st' /\
       (forall col c, dict_lookup (value_counters st') col = Some c ->
                      Forall (fun e => 0 < snd e) c) /\
       (forall col v,
          Counter.get (counter_of (value_counters st) col) v 0 <=
          Counter.get (counter_of (value_counters st') col) v 0)) /\
    let r := process_csv_thread basename now file top_n chunk_size stop_at in
    (forall col c, dict_lookup (final_counters r) col = Some c ->
                   Forall (fun e => 0 < snd e) c) /\
    exists st,
      state_at reader (chunks_analyzed r) = Ok st /\
      final_counters r = value_counters st.
Proof.
  intros Hne Hnd Hn.
  destruct (RunFacts.run_facts basename now file top_n chunk_size stop_at
              Hne Hnd Hn)
    as [reader [st [Hr [Hre [Hcells [Hb [Hst Hrun]]]]]]].
  assert (Hpos : forall k stk,
            state_at reader k = Ok stk ->
            forall col c, dict_lookup (value_counters stk) col = Some c ->
                          Forall (fun e => 0 < snd e) c).
  { intros k stk Hk col c Hc.
    destruct (Hb k) as [stk' [Hstk [_ [_ [Hcnt _]]]]].
    rewrite Hk in Hstk. injection Hstk as <-.
    apply RunFacts.lookup_counter_of in Hc. rewrite Hcnt in Hc. subst c.
    apply Forall_forall. intros [v n] Hin.
    apply EngineFacts.column_counter_entry in Hin. simpl. tauto. }
  exists reader. split; [exact Hr |]. split.
  - intros k.
    destruct (Hb k) as [s0 [Hs0 [_ [_ [Hc0 _]]]]].
    destruct (Hb (S k)) as [s1 [Hs1 [_ [_ [Hc1 _]]]]].
    exists s0, s1. split; [exact Hs0 |]. split; [exact Hs1 |].
    split; [now apply (Hpos (S k)) |].
    intros col v. rewrite Hc0, Hc1, !EngineFacts.column_counter_get.
    destruct (RunFacts.firstn_S_split k reader) as [tail Ht]. rewrite Ht.
    unfold column_cells. rewrite flat_map_app, filter_app.
    rewrite PandasFacts.occurrences_app.
    pose proof (RunFacts.occurrences_nonneg
                  (filter notna (flat_map (fun chunk => getcol chunk col) tail)) v).
    lia.
  - cbv zeta. rewrite Hrun. cbn [chunks_analyzed final_counters].
    set (k := merged_count stop_at (List.length reader)) in *.
    destruct (Hb k) as [stk [Hstk [Hnum _]]].
    rewrite Hst in Hstk. injection Hstk as <-.
    assert (Hk : (k <= List.length reader)%nat).
    { unfold k, merged_count. destruct stop_at; lia. }
    rewrite Hnum, Nat.min_l by exact Hk.
    split; [now apply (Hpos k) |]. exists st. auto.
Qed.

Lemma C10_counts_positive_and_growing_witness :
  (columns tie_file <> [] /\ NoDup (columns tie_file) /\ 1 <= 500) /\
  exists reader,
    read_csv tie_file 500 = Some reader /\
    (forall k, exists st st',
       state_at reader k = Ok st /\
       state_at reader (S k) = Ok st' /\
       (forall col c, dict_lookup (value_counters st') col = Some c ->
                      Forall (fun e => 0 < snd e) c) /\
       (forall col v,
          Counter.get (counter_of (value_counters st) col) v 0 <=
          Counter.get (counter_of (value_counters st') col) v 0)) /\
    let r := process_csv_thread "t.csv" "2025-07-13 10:00:00" tie_file 1 500
               None in
    (forall col c, dict_lookup (final_counters r) col = Some c ->
                   Forall (fun e => 0 < snd e) c) /\
    exists st,
      state_at reader (chunks_analyzed r) = Ok st /\
      final_counters r = value_counters st.
Proof.
  assert (H1 : columns tie_file <> []) by discriminate.
  assert (H2 : NoDup (columns tie_file)) by (repeat constructor; intros []).
  assert (H3 : 1 <= 500) by discriminate.
  split; [auto |].
  apply (C10_counts_positive_and_growing
           "t.csv" "2025-07-13 10:00:00" tie_file 1 500 None H1 H2 H3).
Defined.

(** * Further properties of the code *)

(** ** File names *)

Module FilesFacts.
Import Files.

Lemma all_chars_app (p : ascii -> bool) (a b : string) :
  all_chars p (a +++ b) = all_chars p a && all_chars p b.
Proof.
  induction a as [| x a IH]; simpl; [reflexivity |].
  rewrite IH. now rewrite andb_assoc.
Qed.

Lemma all_chars_impl (p q : ascii -> bool) (s : string) :
  (forall a, p a = true -> q a = true) ->
  all_chars p s = true -> all_chars q s = true.
Proof.
  intros Hpq. induction s as [| x s IH]; simpl; [reflexivity |].
  intros H. apply andb_true_iff in H. destruct H as [Hx Hs].
  apply andb_true_iff. auto.
Qed.

Lemma sanitize_clean (s : string) : clean (sanitize_filename s) = true.
Proof.
  unfold clean. induction s as [| a s IH]; simpl; [reflexivity |].
  destruct (forbidden a) eqn:E; [exact IH |].
  simpl. now rewrite E, IH.
Qed.

Lemma sanitize_of_clean (s : string) :
  clean s = true -> sanitize_filename s = s.
Proof.
  unfold clean. induction s as [| a s IH]; simpl; [reflexivity |].
  intros H. apply andb_true_iff in H. destruct H as [Ha Hs].
  apply negb_true_iff in Ha. rewrite Ha. now rewrite IH.
Qed.

Lemma sanitize_app (a b : string) :
  sanitize_filename (a +++ b) = sanitize_filename a +++ sanitize_filename b.
Proof.
  induction a as [| x a IH]; simpl; [reflexivity |].
  destruct (forbidden x); simpl; now rewrite IH.
Qed.

Lemma sanitize_length (s : string) :
  (String.length (sanitize_filename s) <= String.length s)%nat.
Proof.
  induction s as [| a s IH]; simpl; [lia |].
  destruct (forbidden a); simpl; lia.
Qed.

Lemma digit_not_forbidden (a : ascii) :
  Validation.digit_val a <> None -> forbidden a = false.
Proof.
  destruct a as [[|] [|] [|] [|] [|] [|] [|] [|]]; vm_compute;
    congruence.
Qed.

Lemma stamp_char_not_forbidden (a : ascii) :
  stamp_char a = true -> negb (forbidden a) = true.
Proof.
  destruct a as [[|] [|] [|] [|] [|] [|] [|] [|]]; vm_compute;
    congruence.
Qed.

Lemma string_of_uint_clean (d : Decimal.uint) :
  clean (NilEmpty.string_of_uint d) = true.
Proof. unfold clean. induction d; simpl; auto. Qed.

Lemma str_of_Z_clean (n : Z) : 0 < n -> clean (str_of_Z n) = true.
Proof.
  intros Hn. destruct n as [| p | p]; try lia.
  unfold str_of_Z. simpl. apply string_of_uint_clean.
Qed.

End FilesFacts.

(** X1.  Whatever the name, [sanitize_filename] returns a name with none
    of the nine characters of its class, and sanitizing a second time
    changes nothing. *)
Theorem X1_sanitize_filename_output_is_clean (filename : string) :
  Files.clean (Files.sanitize_filename filename) = true /\
  Files.sanitize_filename (Files.sanitize_filename filename) =
  Files.sanitize_filename filename.
Proof.
  split; [apply FilesFacts.sanitize_clean |].
  apply FilesFacts.sanitize_of_clean, FilesFacts.sanitize_clean.
Qed.

(** X2.  [sanitize_filename] only deletes: a name is returned unchanged
    exactly when it has none of the characters of the class, the result
    is never longer than the name, and a name made of two parts is
    sanitized part by part. *)
Theorem X2_sanitize_filename_only_deletes (a b : string) :
  (Files.sanitize_filename a = a <-> Files.clean a = true) /\
  (String.length (Files.sanitize_filename a) <= String.length a)%nat /\
  Files.sanitize_filename (a +++ b) =
  Files.sanitize_filename a +++ Files.sanitize_filename b.
Proof.
  split; [| split].
  - split.
    + intros H. rewrite <- H. apply FilesFacts.sanitize_clean.
    + apply FilesFacts.sanitize_of_clean.
  - apply FilesFacts.sanitize_length.
  - apply FilesFacts.sanitize_app.
Qed.

(** X3.  The file names proposed for the saved report and the saved log
    have none of the characters of the class, whatever the name of the
    analysed file, for every positive top-N and every time stamp made of
    digits and underscores. *)
Theorem X3_default_filenames_are_clean (stem stamp : string) (top_n_val : Z) :
  0 < top_n_val ->
  Files.all_chars Files.stamp_char stamp = true ->
  Files.clean (Files.default_report_filename stem top_n_val stamp) = true /\
  Files.clean (Files.default_log_filename stem stamp) = true.
Proof.
  intros Hn Hs.
  assert (Hstamp : Files.clean stamp = true).
  { unfold Files.clean.
    apply (FilesFacts.all_chars_impl Files.stamp_char); [| exact Hs].
    apply FilesFacts.stamp_char_not_forbidden. }
  unfold Files.default_report_filename, Files.default_log_filename, Files.clean.
  rewrite !FilesFacts.all_chars_app.
  fold (Files.clean (Files.sanitize_filename stem)).
  fold (Files.clean (str_of_Z top_n_val)). fold (Files.clean stamp).
  rewrite FilesFacts.sanitize_clean, Hstamp.
  rewrite (FilesFacts.str_of_Z_clean top_n_val Hn).
  split; reflexivity.
Qed.

Lemma X3_default_filenames_are_clean_witness :
  (0 < 10 /\ Files.all_chars Files.stamp_char "20250713_101500" = true) /\
  Files.clean (Files.default_report_filename "a/b: c?" 10 "20250713_101500")
  = true.
Proof.
  assert (H1 : 0 < 10) by reflexivity.
  assert (H2 : Files.all_chars Files.stamp_char "20250713_101500" = true)
    by reflexivity.
  split; [auto |].
  apply (X3_default_filenames_are_clean "a/b: c?" "20250713_101500" 10 H1 H2).
Defined.

(** ** Validation, start of a run, end of a run *)

Module GuiFacts.
Import Engine Gui.

Lemma validate_top_n_range (s : string) :
  0 < Validation.value (Validation.validate_top_n Validation.py_int s).
Proof.
  unfold Validation.validate_top_n.
  destruct (Validation.py_int s) as [n |]; [| reflexivity].
  destruct (0 <? n) eqn:E; [| reflexivity].
  now apply Z.ltb_lt in E.
Qed.

Lemma validate_chunk_size_range (s : string) :
  500 <= Validation.value (Validation.validate_chunk_size Validation.py_int s).
Proof.
  unfold Validation.validate_chunk_size.
  destruct (Validation.py_int s) as [n |]; [| discriminate].
  destruct (Validation.MIN_CHUNK_SIZE <=? n) eqn:E; [| discriminate].
  now apply Z.leb_le in E.
Qed.

(** Validating the text a validation left in the entry gives the same
    value and no warning. *)
Lemma validate_top_n_again (s : string) :
  let v := Validation.validate_top_n Validation.py_int s in
  Validation.validate_top_n Validation.py_int (Validation.entry_after v) =
  Validation.mkValidated (Validation.value v) None (Validation.entry_after v).
Proof.
  unfold Validation.validate_top_n.
  destruct (Validation.py_int s) as [n |] eqn:Ep; [| reflexivity].
  destruct (0 <? n) eqn:E; [| reflexivity].
  simpl. now rewrite Ep, E.
Qed.

Lemma validate_chunk_size_again (s : string) :
  let v := Validation.validate_chunk_size Validation.py_int s in
  Validation.validate_chunk_size Validation.py_int (Validation.entry_after v) =
  Validation.mkValidated (Validation.value v) None (Validation.entry_after v).
Proof.
  unfold Validation.validate_chunk_size.
  destruct (Validation.py_int s) as [n |] eqn:Ep; [| reflexivity].
  destruct (Validation.MIN_CHUNK_SIZE <=? n) eqn:E; [| reflexivity].
  simpl. now rewrite Ep, E.
Qed.

Lemma lstrip_snoc (l : list ascii) (x : ascii) :
  Validation.is_space x = false ->
  Validation.lstrip (l ++ [x]) = Validation.lstrip l ++ [x].
Proof.
  intros Hx. induction l as [| a l IH]; simpl.
  - now rewrite Hx.
  - destruct (Validation.is_space a); [exact IH | reflexivity].
Qed.

(** Text that begins with a character that is no white space keeps it
    when stripped. *)
Lemma strip_cons (x : ascii) (l : list ascii) :
  Validation.is_space x = false ->
  Validation.strip (x :: l) = x :: rev (Validation.lstrip (rev l)).
Proof.
  intros Hx. unfold Validation.strip. simpl Validation.lstrip at 2.
  rewrite Hx. simpl rev. rewrite lstrip_snoc by assumption.
  rewrite rev_app_distr. reflexivity.
Qed.

Lemma report_first_char (basename now : string) (d : counters) (top_n : Z) :
  exists rest, generate_report basename now d top_n = String "-" rest.
Proof.
  rewrite ReportFacts.generate_report_layout.
  unfold Layout.header_block. simpl. eauto.
Qed.

(** A generated report always counts as content to save. *)
Lemma report_is_content (basename now : string) (d : counters) (top_n : Z) :
  is_content_present (generate_report basename now d top_n) = true.
Proof.
  destruct (report_first_char basename now d top_n) as [rest ->].
  unfold is_content_present, py_strip.
  simpl list_ascii_of_string. rewrite strip_cons by reflexivity.
  reflexivity.
Qed.

Lemma is_set_mono (stop_at : option nat) (p : nat) :
  is_set stop_at p = true -> is_set stop_at (S p) = true.
Proof.
  destruct stop_at as [t |]; simpl; [| discriminate].
  intros H. apply Nat.leb_le in H. apply Nat.leb_le. lia.
Qed.

End GuiFacts.

(** X4.  Validation settles the entry fields: whatever they hold, the
    value [validate_top_n] returns is above 0 and the one
    [validate_chunk_size] returns is at least 500, and validating again
    returns the same values, leaves the window as it is and shows no
    further message box. *)
Theorem X4_validation_settles_the_entries (g : Gui.app) :
  let r1 := Gui.validate_top_n g in
  let r2 := Gui.validate_chunk_size g in
  0 < fst r1 /\ Gui.validate_top_n (snd r1) = r1 /\
  500 <= fst r2 /\ Gui.validate_chunk_size (snd r2) = r2.
Proof.
  cbv zeta. unfold Gui.validate_top_n, Gui.validate_chunk_size. simpl.
  pose proof (GuiFacts.validate_top_n_again (Gui.top_n_var g)) as H1.
  pose proof (GuiFacts.validate_chunk_size_again (Gui.chunk_size_var g)) as H2.
  cbv zeta in H1, H2.
  split; [apply GuiFacts.validate_top_n_range |].
  split; [rewrite H1; simpl; now rewrite app_nil_r |].
  split; [apply GuiFacts.validate_chunk_size_range |].
  rewrite H2. simpl. now rewrite app_nil_r.
Qed.

(** X5.  With a file selected, [start_processing] starts the thread on
    that file with the values the two validators return, a top-N above 0
    and a chunk size of at least 500 whatever the entry fields hold,
    records the top-N, disables Process and both Save buttons, enables
    Stop and clears the flag. *)
Theorem X5_start_processing_arms_the_run (g : Gui.app) :
  Gui.file_path g <> EmptyString ->
  exists g' top_n chunk_size,
    Gui.start_processing g = (g', Some (Gui.file_path g, top_n, chunk_size)) /\
    top_n = fst (Gui.validate_top_n g) /\
    chunk_size = fst (Gui.validate_chunk_size (snd (Gui.validate_top_n g))) /\
    0 < top_n /\ 500 <= chunk_size /\
    Gui.last_used_top_n g' = Some top_n /\
    Gui.process_button g' = false /\ Gui.stop_button g' = true /\
    Gui.save_report_button g' = false /\ Gui.save_log_button g' = false /\
    Gui.stop_event g' = false.
Proof.
  intros Hp.
  unfold Gui.start_processing.
  destruct (Gui.file_path g) as [| a p] eqn:Ep; [congruence |].
  unfold Gui.validate_chunk_size, Gui.validate_top_n. simpl.
  do 3 eexists. split; [rewrite Ep; reflexivity |].
  pose proof (GuiFacts.validate_top_n_range (Gui.top_n_var g)) as H1.
  pose proof (GuiFacts.validate_chunk_size_range (Gui.chunk_size_var g)) as H2.
  repeat (split; [first [exact H1 | exact H2 | reflexivity] |]).
  reflexivity.
Qed.

Lemma X5_start_processing_arms_the_run_witness :
  exists g' top_n chunk_size,
    Gui.start_processing
      (Gui.mkApp "t.csv" "abc" "100" None true false false false EmptyString
         false [])
    = (g', Some ("t.csv", top_n, chunk_size)) /\
    0 < top_n /\ 500 <= chunk_size.
Proof.
  assert (H1 : "t.csv" <> EmptyString) by discriminate.
  destruct (X5_start_processing_arms_the_run
              (Gui.mkApp "t.csv" "abc" "100" None true false false false
                 EmptyString false [])
              H1)
    as [g' [top_n [chunk_size [Hs [_ [_ [Ht [Hc _]]]]]]]].
  exists g', top_n, chunk_size. auto.
Defined.

(** X6.  Once a run has been started, [save_report] names the report
    after the top-N that run used: whatever the top-N entry holds by
    then, line 313 yields the value [start_processing] validated, without
    validating again and without a message box. *)
Theorem X6_report_name_uses_the_run_top_n (g later : Gui.app) :
  Gui.file_path g <> EmptyString ->
  Gui.last_used_top_n later = Gui.last_used_top_n (fst (Gui.start_processing g)) ->
  Gui.top_n_val later = (fst (Gui.validate_top_n g), later).
Proof.
  intros Hp Hl. unfold Gui.start_processing in Hl.
  destruct (Gui.file_path g) as [| a p]; [congruence |].
  unfold Gui.validate_chunk_size, Gui.validate_top_n in Hl. simpl in Hl.
  unfold Gui.top_n_val. rewrite Hl.
  pose proof (GuiFacts.validate_top_n_range (Gui.top_n_var g)) as H1.
  unfold Gui.validate_top_n. simpl.
  replace (Validation.value (Validation.validate_top_n Validation.py_int (Gui.top_n_var g)) =? 0)
    with false by (symmetry; apply Z.eqb_neq; lia).
  reflexivity.
Qed.

Lemma X6_report_name_uses_the_run_top_n_witness :
  Gui.top_n_val
    (Gui.mkApp "t.csv" "oops" "9000" (Some 3) true false true true "r" false [])
  = (3, Gui.mkApp "t.csv" "oops" "9000" (Some 3) true false true true "r"
          false []).
Proof.
  assert (H1 : "t.csv" <> EmptyString) by discriminate.
  apply (X6_report_name_uses_the_run_top_n
           (Gui.mkApp "t.csv" "3" "9000" None true false false false
              EmptyString false [])
           (Gui.mkApp "t.csv" "oops" "9000" (Some 3) true false true true "r"
              false [])
           H1).
  reflexivity.
Defined.

(** X7.  When a run ends, however it ends, the window is left with
    Process enabled, Stop disabled, Save Log enabled, the flag clear and
    the run's text in the report panel, and Save Report is enabled
    exactly when the run succeeded. *)
Theorem X7_save_report_enabled_iff_success (g : Gui.app)
    (basename now : string) (file : DataFrame) (top_n chunk_size : Z)
    (stop_at : option nat) :
  let r := process_csv_thread basename now file top_n chunk_size stop_at in
  let g' := Gui.thread_done g r in
  Gui.save_report_button g' = success r /\
  Gui.process_button g' = true /\ Gui.stop_button g' = false /\
  Gui.save_log_button g' = true /\ Gui.stop_event g' = false /\
  Gui.report_text g' = report_content r.
Proof.
  cbv zeta. split; [| repeat split].
  unfold Gui.thread_done, Gui.enable_controls_after_processing,
    Gui.update_report_text. simpl.
  unfold process_csv_thread.
  destruct (bind _ _) as [[[st polls] rest] | msg]; simpl.
  - destruct (is_set stop_at polls) eqn:E1.
    + rewrite (GuiFacts.is_set_mono _ _ E1). reflexivity.
    + rewrite GuiFacts.report_is_content.
      destruct (is_set stop_at (S polls)); reflexivity.
  - reflexivity.
Qed.

(** ** Cancellation after the last chunk *)

Module LateFacts.
Import Pandas Engine Trace.

(** A flag that goes up no earlier than the loop's last check lets the
    loop merge every chunk. *)
Lemma run_with_late_flag (basename now : string) (file : DataFrame)
    (top_n chunk_size : Z) (reader : list DataFrame) (t : nat) :
  columns file <> [] -> NoDup (columns file) -> 1 <= chunk_size ->
  read_csv file chunk_size = Some reader ->
  (List.length reader <= t)%nat ->
  exists st,
    state_at reader (List.length reader) = Ok st /\
    process_csv_thread basename now file top_n chunk_size None =
    mkRun (generate_report basename now (value_counters st) top_n) true
      (value_counters st) (chunk_num st) [] /\
    process_csv_thread basename now file top_n chunk_size (Some t) =
    mkRun (if (t <=? List.length reader)%nat then STOPPED
           else generate_report basename now (value_counters st) top_n)
      (negb (t <=? S (List.length reader))%nat)
      (value_counters st) (chunk_num st) [].
Proof.
  intros Hne Hnd Hn Hread Ht.
  destruct (RunFacts.run_facts basename now file top_n chunk_size None
              Hne Hnd Hn)
    as [rd0 [st0 [Hr0 [_ [_ [_ [Hst0 Hrun0]]]]]]].
  destruct (RunFacts.run_facts basename now file top_n chunk_size (Some t)
              Hne Hnd Hn)
    as [rd1 [st1 [Hr1 [_ [_ [_ [Hst1 Hrun1]]]]]]].
  assert (rd0 = reader) by congruence. subst rd0.
  assert (rd1 = reader) by congruence. subst rd1.
  cbn [merged_count] in Hst0, Hrun0, Hst1, Hrun1.
  rewrite Nat.min_r in Hst1, Hrun1 by exact Ht.
  rewrite Hst0 in Hst1. injection Hst1 as <-.
  rewrite Nat.ltb_irrefl in Hrun0, Hrun1.
  rewrite skipn_all2 in Hrun0, Hrun1 by lia.
  exists st0. split; [exact Hst0 |]. split; [exact Hrun0 | exact Hrun1].
Qed.

End LateFacts.

(** X8.  A stop request that arrives after the loop's last check and
    before the test of line 274 throws the finished work away: every
    chunk has been merged and the maps are those of the completed run,
    yet the report is the stopped text and the run does not succeed. *)
Theorem X8_stop_after_last_chunk_discards_report (basename now : string)
    (file : DataFrame) (top_n chunk_size : Z) (reader : list DataFrame) :
  columns file <> [] -> NoDup (columns file) -> 1 <= chunk_size ->
  read_csv file chunk_size = Some reader ->
  let r := process_csv_thread basename now file top_n chunk_size
             (Some (List.length reader)) in
  let r0 := process_csv_thread basename now file top_n chunk_size None in
  report_content r = "Processing was stopped before completion." /\
  success r = false /\
  final_counters r = final_counters r0 /\
  chunks_analyzed r = chunks_analyzed r0 /\
  unread r = [].
Proof.
  intros Hne Hnd Hn Hread.
  destruct (LateFacts.run_with_late_flag basename now file top_n chunk_size
              reader (List.length reader) Hne Hnd Hn Hread (Nat.le_refl _))
    as [st [_ [H0 H1]]].
  cbv zeta. rewrite H0, H1. rewrite Nat.leb_refl.
  replace (List.length reader <=? S (List.length reader))%nat with true
    by (symmetry; apply Nat.leb_le; lia).
  repeat split.
Qed.

Lemma X8_stop_after_last_chunk_discards_report_witness :
  success
    (process_csv_thread "t.csv" "2025-07-13 10:00:00" tie_file 1 500
       (Some (List.length (tie_reader 500)))) = false.
Proof.
  assert (H1 : columns tie_file <> []) by discriminate.
  assert (H2 : NoDup (columns tie_file)) by (repeat constructor; intros []).
  assert (H3 : 1 <= 500) by discriminate.
  assert (H4 : read_csv tie_file 500 = Some (tie_reader 500))
    by (vm_compute; reflexivity).
  apply (X8_stop_after_last_chunk_discards_report
           "t.csv" "2025-07-13 10:00:00" tie_file 1 500 (tie_reader 500)
           H1 H2 H3 H4).
Defined.

(** X9.  A stop request that arrives between the test of line 274 and
    the one of line 282 leaves the complete report of the finished run
    in the result but marks the run as not successful. *)
Theorem X9_stop_during_report_fails_the_run (basename now : string)
    (file : DataFrame) (top_n chunk_size : Z) (reader : list DataFrame) :
  columns file <> [] -> NoDup (columns file) -> 1 <= chunk_size ->
  read_csv file chunk_size = Some reader ->
  let r := process_csv_thread basename now file top_n chunk_size
             (Some (S (List.length reader))) in
  let r0 := process_csv_thread basename now file top_n chunk_size None in
  success r0 = true /\
  report_content r = report_content r0 /\
  report_content r = generate_report basename now (final_counters r) top_n /\
  final_counters r = final_counters r0 /\
  success r = false.
Proof.
  intros Hne Hnd Hn Hread.
  destruct (LateFacts.run_with_late_flag basename now file top_n chunk_size
              reader (S (List.length reader)) Hne Hnd Hn Hread)
    as [st [_ [H0 H1]]]; [lia |].
  cbv zeta. rewrite H0, H1.
  replace (S (List.length reader) <=? List.length reader)%nat with false
    by (symmetry; apply Nat.leb_gt; lia).
  rewrite Nat.leb_refl. repeat split.
Qed.

Lemma X9_stop_during_report_fails_the_run_witness :
  success
    (process_csv_thread "t.csv" "2025-07-13 10:00:00" tie_file 1 500
       (Some (S (List.length (tie_reader 500))))) = false.
Proof.
  assert (H1 : columns tie_file <> []) by discriminate.
  assert (H2 : NoDup (columns tie_file)) by (repeat constructor; intros []).
  assert (H3 : 1 <= 500) by discriminate.
  assert (H4 : read_csv tie_file 500 = Some (tie_reader 500))
    by (vm_compute; reflexivity).
  apply (X9_stop_during_report_fails_the_run
           "t.csv" "2025-07-13 10:00:00" tie_file 1 500 (tie_reader 500)
           H1 H2 H3 H4).
Defined.

(** X10.  A stop request that arrives after the test of line 282 changes
    nothing: the result is that of the run that was never asked to
    stop. *)
Theorem X10_stop_after_the_end_is_ignored (basename now : string)
    (file : DataFrame) (top_n chunk_size : Z) (reader : list DataFrame)
    (t : nat) :
  columns file <> [] -> NoDup (columns file) -> 1 <= chunk_size ->
  read_csv file chunk_size = Some reader ->
  (List.length reader + 2 <= t)%nat ->
  process_csv_thread basename now file top_n chunk_size (Some t) =
  process_csv_thread basename now file top_n chunk_size None.
Proof.
  intros Hne Hnd Hn Hread Ht.
  destruct (LateFacts.run_with_late_flag basename now file top_n chunk_size
              reader t Hne Hnd Hn Hread)
    as [st [_ [H0 H1]]]; [lia |].
  rewrite H0, H1.
  replace (t <=? List.length reader)%nat with false
    by (symmetry; apply Nat.leb_gt; lia).
  replace (t <=? S (List.length reader))%nat with false
    by (symmetry; apply Nat.leb_gt; lia).
  reflexivity.
Qed.

Lemma X10_stop_after_the_end_is_ignored_witness :
  process_csv_thread "t.csv" "2025-07-13 10:00:00" tie_file 1 500 (Some 4%nat) =
  process_csv_thread "t.csv" "2025-07-13 10:00:00" tie_file 1 500 None.
Proof.
  assert (H1 : columns tie_file <> []) by discriminate.
  assert (H2 : NoDup (columns tie_file)) by (repeat constructor; intros []).
  assert (H3 : 1 <= 500) by discriminate.
  assert (H4 : read_csv tie_file 500 = Some (tie_reader 500))
    by (vm_compute; reflexivity).
  assert (H5 : (List.length (tie_reader 500) + 2 <= 4)%nat)
    by (vm_compute; repeat constructor).
  apply (X10_stop_after_the_end_is_ignored
           "t.csv" "2025-07-13 10:00:00" tie_file 1 500 (tie_reader 500) 4
           H1 H2 H3 H4 H5).
Defined.

(** ** The loop body on any chunk *)

(** X11.  Once the header is set, the loop body accepts any chunk,
    whatever its columns: it raises nothing, counts the chunk, keeps the
    header and the columns of the dict as they are, so a column the
    header does not have is ignored, and leaves alone the Counter of
    every column the chunk does not have. *)
Theorem X11_loop_body_accepts_any_chunk (st : loop_state) (chunk : DataFrame) :
  header st <> [] -> NoDup (header st) ->
  map fst (value_counters st) = header st ->
  exists st',
    process_chunk st chunk = Ok st' /\
    header st' = header st /\
    map fst (value_counters st') = header st /\
    chunk_num st' = S (chunk_num st) /\
    forall col, ~ In col (columns chunk) ->
      dict_lookup (value_counters st') col = dict_lookup (value_counters st) col.
Proof.
  intros Hne Hnd Hk. unfold process_chunk.
  destruct (header st) as [| h0 hs] eqn:Eh; [congruence |].
  cbn [value_counters header chunk_num].
  destruct (EngineFacts.update_columns_ok chunk (h0 :: hs) (value_counters st) Hnd)
    as [d' [Hrun [Hk' [Hl Ho]]]].
  { intros col Hin. now rewrite Hk. }
  rewrite Hrun. cbn [bind]. eexists. split; [reflexivity |].
  cbn [value_counters header chunk_num].
  split; [reflexivity |]. split; [congruence |]. split; [reflexivity |].
  intros col Hc.
  destruct (in_dec string_dec col (h0 :: hs)) as [Hin | Hni].
  - rewrite (Hl col Hin).
    destruct (dict_lookup (value_counters st) col) as [c |]; [| reflexivity].
    simpl. f_equal. apply EngineFacts.step_counter_absent.
    destruct (contains chunk col) eqn:E; [| reflexivity].
    apply EngineFacts.contains_iff in E. tauto.
  - now apply Ho.
Qed.

Lemma X11_loop_body_accepts_any_chunk_witness :
  exists st',
    process_chunk (mkState [("a", [(SStr "x", 1)])] ["a"] 1)
      (mkDataFrame ["b"] [[SStr "y"]]) = Ok st' /\
    header st' = ["a"] /\
    map fst (value_counters st') = ["a"].
Proof.
  assert (H1 : header (mkState [("a", [(SStr "x", 1)])] ["a"] 1) <> [])
    by discriminate.
  assert (H2 : NoDup (header (mkState [("a", [(SStr "x", 1)])] ["a"] 1)))
    by (repeat constructor; intros []).
  destruct (X11_loop_body_accepts_any_chunk
              (mkState [("a", [(SStr "x", 1)])] ["a"] 1)
              (mkDataFrame ["b"] [[SStr "y"]]) H1 H2 eq_refl)
    as [st' [Hp [Hh [Hk _]]]].
  exists st'. auto.
Defined.

(** ** The order of the entries of a map *)

Module OrderFacts.
Import Pandas Engine Trace CounterFacts.

Lemma keys_setitem_grow (c : Counter.t) (k : scalar) (v : Z) :
  exists extra, Counter.keys (Counter.setitem c k v) = Counter.keys c ++ extra.
Proof.
  destruct (in_dec scalar_eq_dec k (Counter.keys c)) as [Hin | Hni].
  - exists []. rewrite keys_setitem_in by assumption. now rewrite app_nil_r.
  - exists [k]. rewrite setitem_notin by assumption.
    unfold Counter.keys. now rewrite map_app.
Qed.

Lemma keys_fold_grow (f : Counter.t -> scalar * Z -> Z) (m c : Counter.t) :
  exists extra,
    Counter.keys
      (fold_left (fun acc kv => Counter.setitem acc (fst kv) (f acc kv)) m c)
    = Counter.keys c ++ extra.
Proof.
  revert c. induction m as [| kv m IH]; intros c; simpl.
  - exists []. now rewrite app_nil_r.
  - destruct (IH (Counter.setitem c (fst kv) (f c kv))) as [e1 H1].
    destruct (keys_setitem_grow c (fst kv) (f c kv)) as [e2 H2].
    exists (e2 ++ e1). rewrite H1, H2. now rewrite app_assoc.
Qed.

(** [Counter.update] keeps the entries it finds in their places and
    puts new ones after them. *)
Lemma keys_update_grow (c m : Counter.t) :
  exists extra, Counter.keys (Counter.update c m) = Counter.keys c ++ extra.
Proof.
  rewrite update_as_fold. destruct c as [| e c].
  - apply (keys_fold_grow (fun _ kv => snd kv)).
  - apply (keys_fold_grow
             (fun acc kv => snd kv + Counter.get acc (fst kv) 0)).
Qed.

Lemma keys_column_counter_grow (chunks : list DataFrame) (col : string) :
  forall acc, exists extra,
    Counter.keys (column_counter acc chunks col) = Counter.keys acc ++ extra.
Proof.
  induction chunks as [| chunk chunks IH]; intros acc.
  - exists []. simpl. now rewrite app_nil_r.
  - simpl column_counter.
    destruct (IH (step_counter col acc chunk)) as [e1 H1].
    destruct (keys_update_grow acc
                (to_dict (value_counts (getcol chunk col)))) as [e2 H2].
    exists (e2 ++ e1). rewrite H1. unfold step_counter. rewrite H2.
    now rewrite app_assoc.
Qed.

Lemma StronglySorted_app_inv (l1 l2 : Counter.t) :
  StronglySorted Spec.desc (l1 ++ l2) ->
  forall a b, In a l1 -> In b l2 -> Spec.desc a b.
Proof.
  induction l1 as [| x l1 IH]; simpl; intros Hs a b Ha Hb; [tauto |].
  inversion Hs as [| ? ? Hs' Hall]; subst.
  destruct Ha as [-> | Ha].
  - apply (proj1 (Forall_forall _ _) Hall). apply in_app_iff. now right.
  - now apply IH.
Qed.

End OrderFacts.

(** X12.  From one chunk boundary of a run to the next, the values
    already in a column's map keep their places and the values the chunk
    brings are put after them: the key order of a map only grows at its
    end.  It is this order that breaks ties in the report. *)
Theorem X12_map_order_grows_at_the_end (file : DataFrame) (chunk_size : Z) :
  columns file <> [] -> NoDup (columns file) -> 1 <= chunk_size ->
  exists reader,
    read_csv file chunk_size = Some reader /\
    forall k, exists st st',
      state_at reader k = Ok st /\
      state_at reader (S k) = Ok st' /\
      forall col, exists extra,
        Counter.keys (counter_of (value_counters st') col) =
        Counter.keys (counter_of (value_counters st) col) ++ extra.
Proof.
  intros Hne Hnd Hn.
  destruct (RunFacts.run_facts EmptyString EmptyString file 1 chunk_size None
              Hne Hnd Hn)
    as [reader [st [Hr [_ [_ [Hb _]]]]]].
  exists reader. split; [exact Hr |].
  intros k.
  destruct (Hb k) as [s0 [Hs0 [_ [_ [Hc0 _]]]]].
  destruct (Hb (S k)) as [s1 [Hs1 [_ [_ [Hc1 _]]]]].
  exists s0, s1. split; [exact Hs0 |]. split; [exact Hs1 |].
  intros col. rewrite Hc0, Hc1.
  destruct (RunFacts.firstn_S_split k reader) as [tail Ht]. rewrite Ht.
  unfold column_counter. rewrite fold_left_app.
  apply OrderFacts.keys_column_counter_grow.
Qed.

Lemma X12_map_order_grows_at_the_end_witness :
  exists reader,
    read_csv tie_file 500 = Some reader /\
    forall k, exists st st',
      state_at reader k = Ok st /\
      state_at reader (S k) = Ok st' /\
      forall col, exists extra,
        Counter.keys (counter_of (value_counters st') col) =
        Counter.keys (counter_of (value_counters st) col) ++ extra.
Proof.
  assert (H1 : columns tie_file <> []) by discriminate.
  assert (H2 : NoDup (columns tie_file)) by (repeat constructor; intros []).
  assert (H3 : 1 <= 500) by discriminate.
  apply (X12_map_order_grows_at_the_end tie_file 500 H1 H2 H3).
Defined.

(** ** What the report lists *)

(** X13.  The pairs a section lists are a top-N of the map: they are
    entries of the map, as many as top-N allows and the map has, and no
    entry left out has a larger count than an entry listed. *)
Theorem X13_listed_pairs_are_the_largest (c : Counter.t) (top_n : Z) :
  let listed := Counter.most_common c top_n in
  List.length listed = Nat.min (Z.to_nat top_n) (List.length c) /\
  incl listed c /\
  forall e e', In e listed -> In e' c -> ~ In e' listed -> snd e' <= snd e.
Proof.
  cbv zeta. unfold Counter.most_common.
  pose proof (CounterFacts.sort_desc_perm c) as P.
  pose proof (CounterFacts.sort_desc_sorted c) as S.
  split; [| split].
  - rewrite length_firstn. now rewrite (Permutation_length P).
  - intros e He. apply (Permutation_in _ P).
    rewrite <- (firstn_skipn (Z.to_nat top_n) (Counter.sort_desc c)).
    apply in_app_iff. now left.
  - intros e e' He He' Hn.
    apply (Permutation_in _ (Permutation_sym P)) in He'.
    rewrite <- (firstn_skipn (Z.to_nat top_n) (Counter.sort_desc c)) in He', S.
    apply in_app_iff in He'. destruct He' as [He' | He']; [tauto |].
    apply (OrderFacts.StronglySorted_app_inv _ _ S e e' He He').
Qed.

(** X14.  After a run that is not cancelled, a column's map is empty
    (the case in which the report prints [No values found.]) exactly
    when every cell of the column is missing; this is so for every column
    of a file without data rows. *)
Theorem X14_empty_map_iff_all_missing (basename now : string)
    (file : DataFrame) (top_n chunk_size : Z) (col : string) :
  columns file <> [] -> NoDup (columns file) -> 1 <= chunk_size ->
  In col (columns file) ->
  let r := process_csv_thread basename now file top_n chunk_size None in
  (counter_of (final_counters r) col = [] <->
   Forall (fun x => x = NaN) (getcol file col)) /\
  (rows file = [] -> counter_of (final_counters r) col = []).
Proof.
  intros Hne Hnd Hn Hcol.
  destruct (RunFacts.run_facts basename now file top_n chunk_size None Hne Hnd Hn)
    as [reader [st [Hr [Hre [Hcells [Hb [Hst Hrun]]]]]]].
  cbn [merged_count] in Hst, Hrun.
  destruct (Hb (List.length reader)) as [st' [Hst' [_ [_ [Hcnt _]]]]].
  rewrite Hst in Hst'. injection Hst' as <-.
  cbv zeta. rewrite Hrun. cbn [final_counters].
  rewrite Hcnt, firstn_all.
  assert (Hiff : column_counter [] reader col = [] <->
                 Forall (fun x => x = NaN) (getcol file col)).
  { split.
    - intros He. apply Forall_forall. intros x Hx.
      destruct (scalar_eq_dec x NaN) as [-> | Hx']; [reflexivity |].
      exfalso.
      assert (Hk : In x (Counter.keys (column_counter [] reader col))).
      { apply EngineFacts.column_counter_keys. right.
        rewrite Hcells. auto. }
      rewrite He in Hk. exact Hk.
    - intros Hall.
      destruct (column_counter [] reader col) as [| [v n] c] eqn:Ec;
        [reflexivity |].
      exfalso.
      assert (Hk : In v (Counter.keys (column_counter [] reader col)))
        by (rewrite Ec; now left).
      apply EngineFacts.column_counter_keys in Hk.
      destruct Hk as [[] | [Hin Hv]]. rewrite Hcells in Hin.
      apply Hv. exact (proj1 (Forall_forall _ _) Hall v Hin). }
  split; [exact Hiff |].
  intros Hrows. apply Hiff. unfold getcol. rewrite Hrows.
  destruct (col_index col (columns file)); constructor.
Qed.

Lemma X14_empty_map_iff_all_missing_witness :
  counter_of
    (final_counters
       (process_csv_thread "e.csv" "2025-07-13 10:00:00"
          (mkDataFrame ["a"; "b"] []) 10 500 None)) "b" = [].
Proof.
  assert (H1 : columns (mkDataFrame ["a"; "b"] []) <> []) by discriminate.
  assert (H2 : NoDup (columns (mkDataFrame ["a"; "b"] []))).
  { constructor; [intros [H | []]; discriminate |].
    constructor; [intros [] | constructor]. }
  assert (H3 : 1 <= 500) by discriminate.
  assert (H4 : In "b" (columns (mkDataFrame ["a"; "b"] [])))
    by (right; left; reflexivity).
  apply (X14_empty_map_iff_all_missing "e.csv" "2025-07-13 10:00:00"
           (mkDataFrame ["a"; "b"] []) 10 500 "b" H1 H2 H3 H4).
  reflexivity.
Defined.

(** ** The dependency check *)

Module DepsFacts.
Import Deps.

Lemma install_missing_spec (pip_ok : string -> bool) (missing : list string) :
  let (ok, ran) := install_missing pip_ok missing in
  (ok = true <-> Forall (fun p => pip_ok p = true) missing) /\
  (exists rest, missing = ran ++ rest) /\
  Forall (fun p => pip_ok p = true) (removelast ran) /\
  (ok = true -> ran = missing) /\
  (ok = false -> exists p, last ran p = p /\ In p ran /\ pip_ok p = false).
Proof.
  induction missing as [| p missing IH]; simpl.
  - repeat split; auto; try discriminate. exists []. reflexivity.
  - destruct (pip_ok p) eqn:Ep.
    + destruct (install_missing pip_ok missing) as [ok ran].
      destruct IH as [Hok [[rest Hrest] [Hfirst [Hall Hfail]]]].
      split; [| split; [| split; [| split]]].
      * rewrite Hok. split; intros H.
        -- constructor; assumption.
        -- now inversion H.
      * exists rest. simpl. now rewrite <- Hrest.
      * destruct ran as [| q ran]; [constructor |].
        change (removelast (p :: q :: ran)) with (p :: removelast (q :: ran)).
        constructor; assumption.
      * intros H. now rewrite Hall.
      * intros H. destruct (Hfail H) as [q [Hl [Hin Hq]]].
        exists q. split; [| split; [now right | exact Hq]].
        destruct ran as [| q' ran]; [destruct Hin |]. exact Hl.
    + split; [| split; [| split; [| split]]].
      * split; [discriminate |]. intros H. inversion H; congruence.
      * exists missing. reflexivity.
      * constructor.
      * discriminate.
      * intros _. exists p. simpl. auto.
Qed.

End DepsFacts.

(** X15.  [check_and_install_dependencies] runs pip only with the
    user's consent and only for packages that are missing, in the order
    of the list, and stops at the first install that fails; it asks
    nothing when nothing is missing; and it returns [True] exactly when
    nothing is missing, or the user agreed and every missing package
    installed. *)
Theorem X15_dependency_check (found : string -> bool) (answer : bool)
    (pip_ok : string -> bool) (packages : list string) :
  let missing := filter (fun pkg => negb (found pkg)) packages in
  let o := Deps.check_and_install_dependencies found answer pip_ok packages in
  (Deps.result o = true <->
   missing = [] \/
   (answer = true /\ Forall (fun p => pip_ok p = true) missing)) /\
  (Deps.asked o = false <-> missing = []) /\
  (exists rest, missing = Deps.installed_with_pip o ++ rest) /\
  Forall (fun p => pip_ok p = true) (removelast (Deps.installed_with_pip o)) /\
  (answer = false -> Deps.installed_with_pip o = []).
Proof.
  cbv zeta. unfold Deps.check_and_install_dependencies.
  destruct (filter (fun pkg => negb (found pkg)) packages) as [| p missing].
  - simpl. repeat split; auto. exists []. reflexivity.
  - destruct answer.
    + pose proof (DepsFacts.install_missing_spec pip_ok (p :: missing)) as H.
      destruct (Deps.install_missing pip_ok (p :: missing)) as [ok ran].
      destruct H as [Hok [Hrest [Hfirst _]]]. simpl.
      split; [| split; [| split; [| split]]]; auto.
      * rewrite Hok. split; [auto |].
        intros [H | [_ H]]; [discriminate | exact H].
      * split; discriminate.
      * discriminate.
    + simpl. split; [| split; [| split; [| split]]]; auto.
      * split; [discriminate |]. intros [H | [H _]]; discriminate.
      * split; discriminate.
      * exists (p :: missing). reflexivity.
Qed.

(** ** What Save Report writes *)

Module SaveFacts.
Import Engine Layout Gui ReportFacts.

Lemma list_of_append (a b : string) :
  list_ascii_of_string (a +++ b) =
  list_ascii_of_string a ++ list_ascii_of_string b.
Proof. induction a as [| x a IH]; simpl; [reflexivity | now rewrite IH]. Qed.

Lemma string_of_list_app (l1 l2 : list ascii) :
  string_of_list_ascii (l1 ++ l2) =
  string_of_list_ascii l1 +++ string_of_list_ascii l2.
Proof. induction l1 as [| x l1 IH]; simpl; [reflexivity | now rewrite IH]. Qed.

Lemma ends_blank_base (body : string) (c : ascii) :
  Validation.is_space c = false -> ends_blank (body +++ String c (nl +++ nl)).
Proof. intros H. exists body, c. auto. Qed.

Lemma ends_blank_prefix (a b : string) : ends_blank b -> ends_blank (a +++ b).
Proof.
  intros [body [c [-> Hc]]]. exists (a +++ body), c.
  split; [now rewrite append_assoc | exact Hc].
Qed.

Lemma last_char (s : string) :
  s <> EmptyString ->
  Files.all_chars (fun a => negb (Validation.is_space a)) s = true ->
  exists body c,
    s = body +++ String c EmptyString /\ Validation.is_space c = false.
Proof.
  induction s as [| x s IH]; intros Hne Hall; [congruence |].
  simpl in Hall. apply andb_true_iff in Hall. destruct Hall as [Hx Hs].
  destruct s as [| y s].
  - exists EmptyString, x. split; [reflexivity |].
    now apply negb_true_iff in Hx.
  - destruct IH as [body [c [E Hc]]]; [discriminate | exact Hs |].
    exists (String x body), c. simpl. now rewrite <- E.
Qed.

Lemma string_of_uint_nonspace (d : Decimal.uint) :
  Files.all_chars (fun a => negb (Validation.is_space a))
    (NilEmpty.string_of_uint d) = true.
Proof. induction d; simpl; auto. Qed.

Lemma string_of_uint_nonempty (d : Decimal.uint) :
  d <> Decimal.Nil -> NilEmpty.string_of_uint d <> EmptyString.
Proof. destruct d; simpl; congruence. Qed.

(** A printed integer ends with a character that is no white space. *)
Lemma str_of_Z_last (z : Z) :
  exists body c,
    str_of_Z z = body +++ String c EmptyString /\
    Validation.is_space c = false.
Proof.
  unfold str_of_Z. destruct z as [| p | p]; simpl.
  - exists EmptyString, "0"%char. auto.
  - apply last_char; [| apply string_of_uint_nonspace].
    apply string_of_uint_nonempty, DecimalPos.Unsigned.to_uint_nonnil.
  - destruct (last_char (NilEmpty.string_of_uint (Pos.to_uint p)))
      as [body [c [E Hc]]].
    + apply string_of_uint_nonempty, DecimalPos.Unsigned.to_uint_nonnil.
    + apply string_of_uint_nonspace.
    + exists (String "-" body), c. simpl. now rewrite <- E.
Qed.

Lemma value_line_ends (e : scalar * Z) : ends_blank (value_line e +++ nl).
Proof.
  unfold value_line.
  destruct (str_of_Z_last (snd e)) as [body [c [E Hc]]]. rewrite E.
  rewrite !append_assoc. do 3 apply ends_blank_prefix.
  simpl. now apply ends_blank_base.
Qed.

Lemma value_lines_ends (listed : list (scalar * Z)) :
  listed <> [] -> ends_blank (value_lines listed +++ nl).
Proof.
  induction listed as [| e listed IH]; intros Hne; [congruence |].
  change (value_lines (e :: listed))
    with (value_line e +++ value_lines listed).
  destruct listed as [| e' listed].
  - simpl value_lines. rewrite append_nil_r. apply value_line_ends.
  - rewrite append_assoc. apply ends_blank_prefix. apply IH. discriminate.
Qed.

Lemma section_ends (i : nat) (col : string) (c : Counter.t)
    (listed : list (scalar * Z)) :
  ends_blank (section i col c listed).
Proof.
  unfold section. destruct c as [| e c].
  - apply ends_blank_prefix.
    exists "No values found", "."%char. split; reflexivity.
  - destruct listed as [| e' listed].
    + simpl value_lines. unfold title. rewrite !append_assoc.
      do 4 apply ends_blank_prefix.
      exists "' --", "-"%char. split; reflexivity.
    + apply ends_blank_prefix. apply value_lines_ends. discriminate.
Qed.

Lemma sections_ends (d : counters) (top_n : Z) :
  forall i, d <> [] -> ends_blank (sections i d top_n).
Proof.
  induction d as [| [col c] d IH]; intros i Hne; [congruence |].
  change (sections i ((col, c) :: d) top_n)
    with (section i col c (Counter.most_common c top_n)
          +++ sections (S i) d top_n).
  destruct d as [| e d].
  - simpl sections. rewrite append_nil_r. apply section_ends.
  - apply ends_blank_prefix. apply IH. discriminate.
Qed.

Lemma header_ends (basename now : string) (top_n : Z) :
  ends_blank (header_block basename now top_n).
Proof.
  unfold header_block.
  do 12 apply ends_blank_prefix.
  exists (repeat_string 39 "="), "="%char. split; reflexivity.
Qed.

Lemma report_ends (basename now : string) (d : counters) (top_n : Z) :
  ends_blank (generate_report basename now d top_n).
Proof.
  rewrite generate_report_layout. destruct d as [| e d].
  - simpl sections. rewrite append_nil_r. apply header_ends.
  - apply ends_blank_prefix. apply sections_ends. discriminate.
Qed.

(** Stripping text that begins with a character that is no white space
    and ends with one followed by newlines removes these newlines. *)
Lemma strip_trailing_newlines (x c : ascii) (rest body : string) :
  Validation.is_space x = false -> Validation.is_space c = false ->
  String x rest = body +++ String c (nl +++ nl) ->
  py_strip (String x rest +++ nl) = body +++ String c EmptyString.
Proof.
  intros Hx Hc E. unfold py_strip.
  rewrite list_of_append.
  assert (L1 : Validation.lstrip
                 (list_ascii_of_string (String x rest)
                  ++ list_ascii_of_string nl)
               = list_ascii_of_string (String x rest)
                 ++ list_ascii_of_string nl).
  { simpl. now rewrite Hx. }
  unfold Validation.strip. rewrite L1, E, list_of_append.
  rewrite <- app_assoc, rev_app_distr.
  change (rev (list_ascii_of_string (String c (nl +++ nl))
               ++ list_ascii_of_string nl))
    with [ascii_of_nat 10; ascii_of_nat 10; ascii_of_nat 10; c].
  cbn [List.app Validation.lstrip].
  change (Validation.is_space (ascii_of_nat 10)) with true. cbv iota.
  rewrite Hc. change (c :: rev (list_ascii_of_string body))
                with (rev [c] ++ rev (list_ascii_of_string body)).
  rewrite <- rev_app_distr, rev_involutive.
  rewrite string_of_list_app, string_of_list_ascii_of_string.
  reflexivity.
Qed.

End SaveFacts.

(** X17.  What Save Report writes for a generated report is the report
    without the two newlines it ends with, nothing else removed; it is
    never empty, so the warning for an empty report is not shown. *)
Theorem X17_saved_report_is_the_report (g : Gui.app) (basename now : string)
    (d : counters) (top_n : Z) :
  let report := generate_report basename now d top_n in
  let saved := Gui.saved_report (Gui.update_report_text g report) in
  saved +++ nl +++ nl = report /\ saved <> EmptyString.
Proof.
  cbv zeta. unfold Gui.saved_report, Gui.update_report_text.
  cbn [Gui.report_text].
  destruct (GuiFacts.report_first_char basename now d top_n) as [rest Hr].
  destruct (SaveFacts.report_ends basename now d top_n) as [body [c [Hb Hc]]].
  rewrite Hr in Hb |- *.
  rewrite (SaveFacts.strip_trailing_newlines "-" c rest body eq_refl Hc Hb).
  split.
  - rewrite Hb, ReportFacts.append_assoc. reflexivity.
  - destruct body; discriminate.
Qed.

(** ** The report against the file *)

Module LookupFacts.
Import Engine.


End LookupFacts.


